(** * ZIP code distance finder: a shallow embedding of [src/src/App.jsx]

    The program has two pieces of logic: [getDistance], which asks the
    distance service for one (origin, destination) pair and normalises
    the answer, and the submit handler [handleSubmit], which runs
    [getDistance] over the four source codes one after the other,
    collects one record per source and flags the nearest one.

    - JavaScript numbers are IEEE 754 binary64 values, modelled by
      [spec_float] with [prec = 53] and [emax = 1024];
    - the parsed response body is a [jsval]; reading a property follows
      the language: it raises a [TypeError] on [undefined] and [null];
    - the network is an oracle inside a [World] that also logs every URL
      requested; a computation is a function [World -> A * World];
    - exceptions are explicit: a call yields [Throw e] or [Return a];
    - a string is the sequence of the bytes of its UTF-8 encoding. *)

From Stdlib Require Import ZArith QArith Qabs List String Ascii Bool Lia Wf_nat.
From Stdlib Require Import Floats.SpecFloat.
Import ListNotations.

Set Warnings "-register-all".

Local Open Scope string_scope.
Local Open Scope Z_scope.

(* ------------------------------------------------------------------ *)
(** * Numbers *)
(* ------------------------------------------------------------------ *)

Module Number.

Definition number : Type := spec_float.

Definition prec : Z := 53.
Definition emax : Z := 1024.

Definition NaN : number := S754_nan.
Definition Infinity : number := S754_infinity false.

(** The Number value of an integer literal. *)
Definition of_Z (z : Z) : number := binary_normalize prec emax z 0 false.

(** [a / b] and [a * b] on Numbers. *)
Definition div (a b : number) : number := SFdiv prec emax a b.
Definition mul (a b : number) : number := SFmul prec emax a b.

(** The Number value of the decimal literal [digits * 10^-frac]: the
    binary64 value nearest to it, ties to even. *)
Definition decimal (digits : Z) (frac : Z) : number :=
  match digits with
  | Z0 => S754_zero false
  | Zpos p => div (S754_finite false p 0) (S754_finite false (Z.to_pos (10 ^ frac)) 0)
  | Zneg p => div (S754_finite true p 0) (S754_finite false (Z.to_pos (10 ^ frac)) 0)
  end.

Definition is_nan (x : number) : bool :=
  match x with S754_nan => true | _ => false end.

(** [a === b] and [a < b] on Numbers. *)
Definition strict_eq (a b : number) : bool := SFeqb a b.
Definition lt (a b : number) : bool := SFltb a b.
Definition le (a b : number) : bool := SFleb a b.

(** The exact value of a finite Number, as a rational. *)
Definition to_Q (x : number) : Q :=
  match x with
  | S754_finite s m e =>
      let q := match e with
               | Zneg k => Qmake (Zpos m) (2 ^ k)%positive
               | _ => inject_Z (Zpos m * 2 ^ e)
               end in
      if s then Qopp q else q
  | _ => 0%Q
  end.

(** ** [Number.prototype.toFixed] and [parseFloat]

    The text produced by [x.toFixed(f)] is kept structured. *)
Inductive FixedString : Type :=
| FsNaN                                   (* "NaN" *)
| FsInfinity (neg : bool)                 (* "Infinity", "-Infinity" *)
| FsDecimal (neg : bool) (n : Z) (f : Z)  (* the digits of n, a point before the last f *)
| FsToString (x : number).                (* |x| >= 10^21: the text of ToString(x) *)

(** [m * 2^e < 10^21] *)
Definition below_1e21 (m : positive) (e : Z) : bool :=
  match e with
  | Zneg k => Zpos m <? 10 ^ 21 * 2 ^ Zpos k
  | _ => Zpos m * 2 ^ e <? 10 ^ 21
  end.

(** "Let n be an integer for which n / 10^f - x is as close to zero as
    possible. If there are two such n, pick the larger n", for
    [x = m * 2^e]. *)
Definition nearest (m : positive) (e : Z) (f : Z) : Z :=
  match e with
  | Zneg k => (2 * 10 ^ f * Zpos m + 2 ^ Zpos k) / 2 ^ (Zpos k + 1)
  | _ => 10 ^ f * (Zpos m * 2 ^ e)
  end.

(** [x.toFixed(fractionDigits)], for [0 <= fractionDigits <= 100] (the
    program only passes 2). The sign of a zero is dropped; a negative
    value that rounds to zero keeps its sign. *)
Definition toFixed (x : number) (fractionDigits : Z) : FixedString :=
  match x with
  | S754_nan => FsNaN
  | S754_infinity s => FsInfinity s
  | S754_zero _ => FsDecimal false 0 fractionDigits
  | S754_finite s m e =>
      if below_1e21 m e then FsDecimal s (nearest m e fractionDigits) fractionDigits
      else FsToString x
  end.

(** [parseFloat] on the text of [toFixed]: the Number nearest to the
    decimal; the text of [ToString(x)] reads back as [x]. *)
Definition parseFloat (t : FixedString) : number :=
  match t with
  | FsNaN => NaN
  | FsInfinity s => S754_infinity s
  | FsDecimal s n f =>
      match n with
      | Zpos p => div (S754_finite s p 0) (S754_finite false (Z.to_pos (10 ^ f)) 0)
      | _ => S754_zero s
      end
  | FsToString x => x
  end.

(** ** [Math.min]

    Arguments are coerced with ToNumber; here an argument is a Number
    or [undefined] ([None]), and [undefined] coerces to [NaN]. *)
Definition coerce (arg : option number) : number :=
  match arg with Some x => x | None => NaN end.

Definition is_neg_zero (x : number) : bool :=
  match x with S754_zero true => true | _ => false end.
Definition is_pos_zero (x : number) : bool :=
  match x with S754_zero false => true | _ => false end.

Fixpoint min_loop (lowest : number) (coerced : list number) : number :=
  match coerced with
  | [] => lowest
  | x :: rest =>
      if is_nan x then NaN
      else
        let lowest := if is_neg_zero x && is_pos_zero lowest
                      then S754_zero true else lowest in
        let lowest := if lt x lowest then x else lowest in
        min_loop lowest rest
  end.

Definition Math_min (args : list (option number)) : number :=
  min_loop Infinity (map coerce args).

End Number.
Export Number.

(* ------------------------------------------------------------------ *)
(** * Values, exceptions and the engine *)
(* ------------------------------------------------------------------ *)

(** The values [res.json()] can resolve to, and [undefined], which
    reading an absent property yields. An object keeps its properties
    in insertion order, one entry per key. *)
Inductive jsval : Type :=
| Undefined
| Null
| Bool (b : bool)
| Num (x : number)
| Str (s : string)
| Arr (items : list jsval)
| Obj (props : list (string * jsval)).

(** What [getDistance] can throw, by origin. *)
Inductive Exn : Type :=
| TransportError (message : string)  (* rejection of fetch() or of res.json(), passed on *)
| TypeError (message : string)       (* raised by the engine while evaluating an expression *)
| RouteNotFound (message : string).  (* new Error(`No route found from ...`), line 9 *)

(** [err.message] *)
Definition message (err : Exn) : string :=
  match err with
  | TransportError m | TypeError m | RouteNotFound m => m
  end.

Inductive result (A : Type) : Type :=
| Throw (err : Exn)
| Return (a : A).
Arguments Throw {A} err.
Arguments Return {A} a.

Definition bind {A B : Type} (c : result A) (k : A -> result B) : result B :=
  match c with
  | Throw err => Throw err
  | Return a => k a
  end.

Notation "x <- c ;; k" := (bind c (fun x => k))
  (at level 61, c at next level, right associativity).

(** What the language leaves to the implementation: the text of a
    [TypeError], the conversion of text to a Number (approximated for
    long literals) and the text of a Number. *)
Class Engine : Type := {
  cannot_read : jsval -> string -> string;
  cannot_convert : string;
  StringToNumber : string -> number;
  NumberToString : number -> string
}.

Module JS.
Section WithEngine.
Context {engine : Engine}.

Fixpoint own (key : string) (props : list (string * jsval)) : option jsval :=
  match props with
  | [] => None
  | (k, v) :: rest => if String.eqb k key then Some v else own key rest
  end.

(** [v.key], for a key no prototype defines ([status], [rows],
    [elements], [distance], [duration], [value]). *)
Definition Get (v : jsval) (key : string) : result jsval :=
  match v with
  | Undefined | Null => Throw (TypeError (cannot_read v key))
  | Obj props => Return (match own key props with Some w => w | None => Undefined end)
  | _ => Return Undefined
  end.

(** [v[0]]. Of a string it is a string of one character, kept here as
    the first byte: the program reads nothing of it but properties
    that no string has. *)
Definition Get0 (v : jsval) : result jsval :=
  match v with
  | Undefined | Null => Throw (TypeError (cannot_read v "0"))
  | Obj props => Return (match own "0" props with Some w => w | None => Undefined end)
  | Arr items => Return (match items with w :: _ => w | [] => Undefined end)
  | Str s => Return (match s with String c _ => Str (String c "") | EmptyString => Undefined end)
  | _ => Return Undefined
  end.

(** [v !== "OK"] *)
Definition not_OK (v : jsval) : bool :=
  match v with
  | Str s => negb (String.eqb s "OK")
  | _ => true
  end.

(** ToString. A parsed object has no callable own property: with an
    own [toString] the conversion finds no method that yields a
    primitive and raises; otherwise [Object.prototype.toString]
    answers. An array is joined with commas, [undefined] and [null]
    items giving the empty text. *)
Fixpoint ToString (v : jsval) : result string :=
  match v with
  | Undefined => Return "undefined"
  | Null => Return "null"
  | Bool true => Return "true"
  | Bool false => Return "false"
  | Num x => Return (NumberToString x)
  | Str s => Return s
  | Arr items =>
      (fix join (l : list jsval) : result string :=
         match l with
         | [] => Return ""
         | x :: rest =>
             a <- match x with
                  | Undefined | Null => Return ""
                  | _ => ToString x
                  end ;;
             match rest with
             | [] => Return a
             | _ => b <- join rest ;; Return (a ++ "," ++ b)
             end
         end) items
  | Obj props =>
      match own "toString" props with
      | Some _ => Throw (TypeError cannot_convert)
      | None => Return "[object Object]"
      end
  end.

(** ToNumber, as applied to the left operand of [/]. *)
Definition ToNumber (v : jsval) : result number :=
  match v with
  | Undefined => Return NaN
  | Null => Return (S754_zero false)
  | Bool true => Return (of_Z 1)
  | Bool false => Return (S754_zero false)
  | Num x => Return x
  | Str s => Return (StringToNumber s)
  | Arr _ | Obj _ => s <- ToString v ;; Return (StringToNumber s)
  end.

(** [!v] for a value that is a string or [undefined]. *)
Definition falsy (v : option string) : bool :=
  match v with
  | None => true
  | Some s => String.eqb s ""
  end.

(** [String.prototype.trim]. A string is the sequence of the bytes of
    its UTF-8 encoding, so a character is one to four bytes long. The
    characters [trim] removes are WhiteSpace and LineTerminator of the
    language: U+0009 to U+000D and U+0020, one byte each; U+00A0, two
    bytes; U+1680, U+2000 to U+200A, U+2028, U+2029, U+202F, U+205F,
    U+3000 and U+FEFF, three bytes each. *)
Definition white1 (c : ascii) : bool :=
  let n := N_of_ascii c in
  (((9 <=? n) && (n <=? 13)) || (n =? 32))%N.

Definition white2 (c1 c2 : ascii) : bool :=
  ((N_of_ascii c1 =? 194) && (N_of_ascii c2 =? 160))%N.

Definition white3 (c1 c2 c3 : ascii) : bool :=
  let a := N_of_ascii c1 in
  let b := N_of_ascii c2 in
  let c := N_of_ascii c3 in
  (((a =? 225) && (b =? 154) && (c =? 128))
   || ((a =? 226) && (b =? 128)
       && (((128 <=? c) && (c <=? 138)) || (c =? 168) || (c =? 169) || (c =? 175)))
   || ((a =? 226) && (b =? 129) && (c =? 159))
   || ((a =? 227) && (b =? 128) && (c =? 128))
   || ((a =? 239) && (b =? 187) && (c =? 191)))%N.

(** The bytes of a character as they are met: first byte first, or,
    with [back], last byte first, when the string is read from its
    end. *)
Definition pair_white (back : bool) (c1 c2 : ascii) : bool :=
  if back then white2 c2 c1 else white2 c1 c2.

Definition triple_white (back : bool) (c1 c2 c3 : ascii) : bool :=
  if back then white3 c3 c2 c1 else white3 c1 c2 c3.

(** What follows the white-space character a string begins with, if it
    begins with one. *)
Definition white_head (back : bool) (s : string) : option string :=
  match s with
  | String c1 r1 =>
      if white1 c1 then Some r1
      else match r1 with
           | String c2 r2 =>
               if pair_white back c1 c2 then Some r2
               else match r2 with
                    | String c3 r3 =>
                        if triple_white back c1 c2 c3 then Some r3 else None
                    | EmptyString => None
                    end
           | EmptyString => None
           end
  | EmptyString => None
  end.

(** The string without the white-space characters it begins with. *)
Fixpoint strip (back : bool) (s : string) : string :=
  match s with
  | String c1 r1 =>
      if white1 c1 then strip back r1
      else match r1 with
           | String c2 r2 =>
               if pair_white back c1 c2 then strip back r2
               else match r2 with
                    | String c3 r3 =>
                        if triple_white back c1 c2 c3 then strip back r3 else s
                    | EmptyString => s
                    end
           | EmptyString => s
           end
  | EmptyString => EmptyString
  end.

Fixpoint reverse (s acc : string) : string :=
  match s with
  | String c rest => reverse rest (String c acc)
  | EmptyString => acc
  end.

Definition trimStart (s : string) : string := strip false s.

Definition trimEnd (s : string) : string :=
  reverse (strip true (reverse s "")) "".

Definition trim (s : string) : string := trimEnd (trimStart s).

End WithEngine.
End JS.
Export JS.

(* ------------------------------------------------------------------ *)
(** * The network *)
(* ------------------------------------------------------------------ *)

(** What [await res.json()] does with the body of a response. *)
Inductive Body : Type :=
| Malformed (message : string)   (* it rejects: the body is not JSON *)
| Json (data : jsval).           (* it resolves to the parsed value *)

(** What [await fetch(url)] does. *)
Inductive FetchOutcome : Type :=
| NetworkFailure (message : string)         (* it rejects *)
| Response (status : Z) (body : Body).      (* it resolves, with an HTTP status *)

(** The world outside: [network k url] is what the service answers to
    the request number [k] (from 0) when it is for [url]; [requests] is
    the log of the URLs requested so far, oldest first. *)
Record World : Type := {
  network : nat -> string -> FetchOutcome;
  requests : list string
}.

Definition M (A : Type) : Type := World -> A * World.

Definition fetch (url : string) : M FetchOutcome :=
  fun w =>
    (network w (List.length (requests w)) url,
     {| network := network w; requests := (requests w ++ [url])%list |}).

(* ------------------------------------------------------------------ *)
(** * [getDistance] (lines 3-22) *)
(* ------------------------------------------------------------------ *)

Module Adapter.

Record DistanceQueryResult : Type := {
  distanceKm : number;
  distanceMiles : number;
  durationMins : number
}.

(** The template literal of line 4: the codes are spliced in as they
    are. *)
Definition url (sourceZip destZip : string) : string :=
  "https://distancefindapi.onrender.com/api/distance?origins="
    ++ sourceZip ++ "&destinations=" ++ destZip.

Section WithEngine.
Context {engine : Engine}.

(** [data.rows[0].elements[0]] *)
Definition first_element (data : jsval) : result jsval :=
  rows <- Get data "rows" ;;
  row <- Get0 rows ;;
  elements <- Get row "elements" ;;
  Get0 elements.

(** The condition of line 8; [||] evaluates its right operand only
    when the left one is false. *)
Definition no_route (data : jsval) : result bool :=
  status <- Get data "status" ;;
  if not_OK status then Return true
  else
    element <- first_element data ;;
    status0 <- Get element "status" ;;
    Return (not_OK status0).

(** Lines 8-21, from the parsed body on. *)
Definition getDistance_data (sourceZip destZip : string) (data : jsval)
  : result DistanceQueryResult :=
  failed <- no_route data ;;
  if failed
  then Throw (RouteNotFound ("No route found from " ++ sourceZip ++ " to " ++ destZip))
  else
    element <- first_element data ;;
    distance <- Get element "distance" ;;
    meters <- Get distance "value" ;;
    m <- ToNumber meters ;;
    let distanceKm := div m (of_Z 1000) in
    let distanceMiles := mul distanceKm (decimal 621371 6) in
    duration <- Get element "duration" ;;
    seconds <- Get duration "value" ;;
    s <- ToNumber seconds ;;
    let durationMins := div s (of_Z 60) in
    Return {| distanceKm := parseFloat (toFixed distanceKm 2);
              distanceMiles := parseFloat (toFixed distanceMiles 2);
              durationMins := parseFloat (toFixed durationMins 2) |}.

(** Lines 4-5 on what the network did: a rejection of [fetch] or of
    [res.json()] is not caught and becomes the failure of
    [getDistance]; the HTTP status of a response is not looked at. *)
Definition getDistance_outcome (sourceZip destZip : string) (res : FetchOutcome)
  : result DistanceQueryResult :=
  match res with
  | NetworkFailure m => Throw (TransportError m)
  | Response _ (Malformed m) => Throw (TransportError m)
  | Response _ (Json data) => getDistance_data sourceZip destZip data
  end.

Definition getDistance (sourceZip destZip : string) : M (result DistanceQueryResult) :=
  fun w =>
    let (res, w') := fetch (url sourceZip destZip) w in
    (getDistance_outcome sourceZip destZip res, w').

End WithEngine.
End Adapter.

(* ------------------------------------------------------------------ *)
(** * The batch of [handleSubmit] (lines 41-59) *)
(* ------------------------------------------------------------------ *)

Module Batch.

(** An element of [newResults]: an object with the key [source] and
    either the three keys of a result or the key [error]. An absent
    key reads as [undefined] ([None]). *)
Record Entry : Type := {
  source : string;
  distanceKm : option number;
  distanceMiles : option number;
  durationMins : option number;
  error : option string
}.

(** An element of [finalResults]: [{ ...r, isMin }]. *)
Record OutcomeRecord : Type := {
  entry : Entry;
  isMin : bool
}.

(** [{ source: zip, ...res }] *)
Definition success (zip : string) (res : Adapter.DistanceQueryResult) : Entry :=
  {| source := zip;
     distanceKm := Some (Adapter.distanceKm res);
     distanceMiles := Some (Adapter.distanceMiles res);
     durationMins := Some (Adapter.durationMins res);
     error := None |}.

(** [{ source: zip, error: err.message }] *)
Definition failure (zip : string) (err : Exn) : Entry :=
  {| source := zip;
     distanceKm := None;
     distanceMiles := None;
     durationMins := None;
     error := Some (message err) |}.

(** The body of the [try]/[catch] of lines 45-50. *)
Definition push (zip : string) (outcome : result Adapter.DistanceQueryResult) : Entry :=
  match outcome with
  | Return res => success zip res
  | Throw err => failure zip err
  end.

(** [r.distanceKm === minDistance] *)
Definition equals (d : option number) (minDistance : number) : bool :=
  match d with
  | Some x => strict_eq x minDistance
  | None => false
  end.

(** Lines 53-59. *)
Definition validDistances (newResults : list Entry) : list (option number) :=
  map distanceKm (filter (fun r => falsy (error r)) newResults).

Definition minDistance (newResults : list Entry) : number :=
  Math_min (validDistances newResults).

Definition finalResults (newResults : list Entry) : list OutcomeRecord :=
  map (fun r => {| entry := r;
                   isMin := falsy (error r) && equals (distanceKm r) (minDistance newResults) |})
      newResults.

Section WithEngine.
Context {engine : Engine}.

(** The loop of lines 44-51: one awaited call per source, in order. *)
Fixpoint for_of (sourceZips : list string) (destZip : string) (newResults : list Entry)
  : M (list Entry) :=
  match sourceZips with
  | [] => fun w => (newResults, w)
  | zip :: rest =>
      fun w =>
        let (outcome, w') := Adapter.getDistance (trim zip) (trim destZip) w in
        for_of rest destZip (newResults ++ [push zip outcome])%list w'
  end.

Definition computeBatch (sourceZips : list string) (destZip : string)
  : M (list OutcomeRecord) :=
  fun w =>
    let (newResults, w') := for_of sourceZips destZip [] w in
    (finalResults newResults, w').

End WithEngine.
End Batch.

(* ------------------------------------------------------------------ *)
(** * The component state and [handleSubmit] (lines 25-63) *)
(* ------------------------------------------------------------------ *)

Module App.

Record State : Type := {
  sourceZip1 : string;
  sourceZip2 : string;
  sourceZip3 : string;
  sourceZip4 : string;
  destZip : string;
  results : list Batch.OutcomeRecord;
  error : string;
  loading : bool;
  darkMode : bool
}.

(** [useState] initial values. *)
Definition initial : State :=
  {| sourceZip1 := "95131"; sourceZip2 := "32220";
     sourceZip3 := "07305"; sourceZip4 := "75050";
     destZip := ""; results := []; error := ""; loading := false;
     darkMode := false |}.

Definition sourceZips (st : State) : list string :=
  [sourceZip1 st; sourceZip2 st; sourceZip3 st; sourceZip4 st].

(** Lines 37-39: what is shown while the batch runs. *)
Definition submitting (st : State) : State :=
  {| sourceZip1 := sourceZip1 st; sourceZip2 := sourceZip2 st;
     sourceZip3 := sourceZip3 st; sourceZip4 := sourceZip4 st;
     destZip := destZip st; results := []; error := ""; loading := true;
     darkMode := darkMode st |}.

(** Lines 61-62. *)
Definition submitted (st : State) (final : list Batch.OutcomeRecord) : State :=
  {| sourceZip1 := sourceZip1 st; sourceZip2 := sourceZip2 st;
     sourceZip3 := sourceZip3 st; sourceZip4 := sourceZip4 st;
     destZip := destZip st; results := final; error := error st;
     loading := false; darkMode := darkMode st |}.

(** The handler, from the state it was created in to the state once
    the batch is published. *)
Definition handleSubmit {engine : Engine} (st : State) : M State :=
  fun w =>
    let (final, w') := Batch.computeBatch (sourceZips st) (destZip st) w in
    (submitted (submitting st) final, w').

End App.

(* ------------------------------------------------------------------ *)
(** * A concrete engine and concrete runs *)
(* ------------------------------------------------------------------ *)

(** An engine to run the model on concrete responses. The messages are
    those of V8. The conversions between text and Numbers are not
    implemented (they answer [NaN]); no run below reaches them. *)
Definition v8 : Engine :=
  {| cannot_read v key :=
       "Cannot read properties of "
         ++ match v with Null => "null" | _ => "undefined" end
         ++ " (reading '" ++ key ++ "')";
     cannot_convert := "Cannot convert object to primitive value";
     StringToNumber _ := NaN;
     NumberToString _ := "NaN" |}.

(** [{status, rows: [{elements: [{status, distance: {value}, duration: {value}}]}]}] *)
Definition element_of (status : string) (meters seconds : Z) : jsval :=
  Obj [("status", Str status);
       ("distance", Obj [("value", Num (of_Z meters))]);
       ("duration", Obj [("value", Num (of_Z seconds))])].

Definition response_of (status : string) (elements : list jsval) : jsval :=
  Obj [("status", Str status); ("rows", Arr [Obj [("elements", Arr elements)]])].

Definition ok_response (meters seconds : Z) : jsval :=
  response_of "OK" [element_of "OK" meters seconds].

(** A world in which the request number [k] is answered by the [k]-th
    outcome of a list, and by a network failure past its end. *)
Definition scripted (outcomes : list FetchOutcome) : World :=
  {| network k _ := nth k outcomes (NetworkFailure "Failed to fetch");
     requests := [] |}.

Definition answered (data : jsval) : FetchOutcome := Response 200 (Json data).

(** A response whose element is marked "OK" and carries nothing else. *)
Definition bare_element : jsval := response_of "OK" [Obj [("status", Str "OK")]].

(** A response whose element has a distance and a duration, both
    without a value. *)
Definition no_value : jsval :=
  response_of "OK" [Obj [("status", Str "OK"); ("distance", Obj []); ("duration", Obj [])]].

Definition sample_sources : list string := ["95131"; "32220"; "07305"; "75050"].

(** Three usable answers and one without values. *)
Definition one_without_value : World :=
  scripted [answered no_value; answered (ok_response 1000 60);
            answered (ok_response 2000 120); answered (ok_response 3000 180)].

(** Two sources at 5 km, one at 7 km, and a failure whose error has an
    empty message. *)
Definition tie_and_silent_failure : World :=
  scripted [answered (ok_response 5000 300); answered (ok_response 5000 300);
            NetworkFailure ""; answered (ok_response 7000 420)].

(** The two sources at 5 km tie, with a failure that says why. *)
Definition tie_and_failure : World :=
  scripted [answered (ok_response 5000 300); answered (ok_response 5000 300);
            NetworkFailure "Failed to fetch"; answered (ok_response 7000 420)].

(** The two sources at 5 km tie, and the third answer has no values. *)
Definition tie_and_nan : World :=
  scripted [answered (ok_response 5000 300); answered (ok_response 5000 300);
            answered no_value; answered (ok_response 7000 420)].

(** Four distinct distances. *)
Definition four_routes : World :=
  scripted [answered (ok_response 4000 240); answered (ok_response 1000 60);
            answered (ok_response 2000 120); answered (ok_response 3000 180)].

(** Four failures of four kinds: the network, a body that is not JSON,
    a status that is not "OK", an element without distance. *)
Definition four_failures : World :=
  scripted [NetworkFailure "Failed to fetch";
            Response 502 (Malformed "Unexpected token '<'");
            answered (response_of "ZERO_RESULTS" []);
            answered bare_element].

(** A server error whose body is JSON. *)
Definition server_error : World :=
  scripted [Response 500 (Json (Obj [("status", Str "UNKNOWN_ERROR")]))].

(** The batch for the sample sources and the destination 60601. *)
Definition run (w : World) : list Batch.OutcomeRecord :=
  fst (Batch.computeBatch (engine := v8) sample_sources "60601" w).

(** Three answers and a failure of the network. *)
Definition three_routes : World :=
  scripted [answered (ok_response 4000 240); NetworkFailure "Unexpected end of JSON input";
            answered (ok_response 2000 120); answered (ok_response 3000 180)].

(** The same answers under other HTTP statuses, and the same message
    from the parsing of a body. *)
Definition three_routes_again : World :=
  scripted [Response 203 (Json (ok_response 4000 240));
            Response 200 (Malformed "Unexpected end of JSON input");
            Response 404 (Json (ok_response 2000 120)); answered (ok_response 3000 180)].

(* ------------------------------------------------------------------ *)
(** * Vocabulary of the statements *)
(* ------------------------------------------------------------------ *)

(** [res.ok]: the HTTP status is in the range 200-299. The program
    does not read it. *)
Definition http_ok (status : Z) : bool := (200 <=? status) && (status <=? 299).

(** The message of line 9. *)
Definition no_route_message (sourceZip destZip : string) : string :=
  "No route found from " ++ sourceZip ++ " to " ++ destZip.

Definition not_nan (x : number) : Prop := is_nan x = false.

(** [parseFloat(x.toFixed(2))] *)
Definition round2 (x : number) : number := parseFloat (toFixed x 2).

Module Outcomes.
Section WithEngine.
Context {engine : Engine}.

(** What the successive calls of [getDistance] made by the loop
    yield, one outcome per source, in the order of the calls. *)
Fixpoint outcomes (sourceZips : list string) (destZip : string) (w : World)
  : list (result Adapter.DistanceQueryResult) :=
  match sourceZips with
  | [] => []
  | zip :: rest =>
      let (outcome, w') := Adapter.getDistance (trim zip) (trim destZip) w in
      outcome :: outcomes rest destZip w'
  end.

End WithEngine.

(** Two outcomes the batch cannot tell apart: the same result, or
    failures with the same message. *)
Definition same_outcome (a b : result Adapter.DistanceQueryResult) : Prop :=
  match a, b with
  | Return x, Return y => x = y
  | Throw e, Throw e' => message e = message e'
  | _, _ => False
  end.

(** A record holds a result when the three keys of a result are
    there, an error when the key [error] is. *)
Definition has_result (r : Batch.Entry) : bool :=
  match Batch.distanceKm r, Batch.distanceMiles r, Batch.durationMins r with
  | Some _, Some _, Some _ => true
  | _, _, _ => false
  end.

Definition has_error (r : Batch.Entry) : bool :=
  match Batch.error r with
  | Some _ => true
  | None => false
  end.

(** The records the loop pushes for given sources and outcomes. *)
Definition collected (sourceZips : list string)
  (outs : list (result Adapter.DistanceQueryResult)) : list Batch.Entry :=
  map (fun p => Batch.push (fst p) (snd p)) (combine sourceZips outs).

(** Distances no two of which are [===]. *)
Definition distinct (ds : list number) : Prop :=
  ForallOrdPairs (fun a b => strict_eq a b = false) ds.

End Outcomes.
Export Outcomes.

Module Responses.
Section WithEngine.
Context {engine : Engine}.

(** The condition of line 8 is evaluated without an error and holds:
    [data.status] can be read and is not "OK", or it is "OK",
    [data.rows[0].elements[0].status] can be read and is not "OK". *)
Definition refused (data : jsval) : Prop :=
  exists status,
    Get data "status" = Return status /\
    (not_OK status = true \/
     exists el status0,
       Adapter.first_element data = Return el /\
       Get el "status" = Return status0 /\ not_OK status0 = true).

(** Both statuses are "OK", the distance and the duration of the first
    element can be read, and so can their values, which convert to the
    Numbers [m] and [sec]. *)
Definition usable (data : jsval) (m sec : number) : Prop :=
  exists el dist dur meters seconds,
    Get data "status" = Return (Str "OK") /\
    Adapter.first_element data = Return el /\
    Get el "status" = Return (Str "OK") /\
    Get el "distance" = Return dist /\ Get dist "value" = Return meters /\
    ToNumber meters = Return m /\
    Get el "duration" = Return dur /\ Get dur "value" = Return seconds /\
    ToNumber seconds = Return sec.

End WithEngine.
End Responses.
Export Responses.

(* ------------------------------------------------------------------ *)
(** * State setters and events (lines 25-33, 71, 78-84) *)
(* ------------------------------------------------------------------ *)

Module Handlers.

(** The five text inputs of the form. *)
Inductive field : Type :=
| SourceZip1
| SourceZip2
| SourceZip3
| SourceZip4
| DestZip.

(** A setter of [useState] replaces its own piece of state and leaves
    the others. *)
Definition setSourceZip1 (v : string) (st : App.State) : App.State :=
  {| App.sourceZip1 := v; App.sourceZip2 := App.sourceZip2 st;
     App.sourceZip3 := App.sourceZip3 st; App.sourceZip4 := App.sourceZip4 st;
     App.destZip := App.destZip st; App.results := App.results st;
     App.error := App.error st; App.loading := App.loading st;
     App.darkMode := App.darkMode st |}.

Definition setSourceZip2 (v : string) (st : App.State) : App.State :=
  {| App.sourceZip1 := App.sourceZip1 st; App.sourceZip2 := v;
     App.sourceZip3 := App.sourceZip3 st; App.sourceZip4 := App.sourceZip4 st;
     App.destZip := App.destZip st; App.results := App.results st;
     App.error := App.error st; App.loading := App.loading st;
     App.darkMode := App.darkMode st |}.

Definition setSourceZip3 (v : string) (st : App.State) : App.State :=
  {| App.sourceZip1 := App.sourceZip1 st; App.sourceZip2 := App.sourceZip2 st;
     App.sourceZip3 := v; App.sourceZip4 := App.sourceZip4 st;
     App.destZip := App.destZip st; App.results := App.results st;
     App.error := App.error st; App.loading := App.loading st;
     App.darkMode := App.darkMode st |}.

Definition setSourceZip4 (v : string) (st : App.State) : App.State :=
  {| App.sourceZip1 := App.sourceZip1 st; App.sourceZip2 := App.sourceZip2 st;
     App.sourceZip3 := App.sourceZip3 st; App.sourceZip4 := v;
     App.destZip := App.destZip st; App.results := App.results st;
     App.error := App.error st; App.loading := App.loading st;
     App.darkMode := App.darkMode st |}.

Definition setDestZip (v : string) (st : App.State) : App.State :=
  {| App.sourceZip1 := App.sourceZip1 st; App.sourceZip2 := App.sourceZip2 st;
     App.sourceZip3 := App.sourceZip3 st; App.sourceZip4 := App.sourceZip4 st;
     App.destZip := v; App.results := App.results st;
     App.error := App.error st; App.loading := App.loading st;
     App.darkMode := App.darkMode st |}.

Definition setResults (v : list Batch.OutcomeRecord) (st : App.State) : App.State :=
  {| App.sourceZip1 := App.sourceZip1 st; App.sourceZip2 := App.sourceZip2 st;
     App.sourceZip3 := App.sourceZip3 st; App.sourceZip4 := App.sourceZip4 st;
     App.destZip := App.destZip st; App.results := v;
     App.error := App.error st; App.loading := App.loading st;
     App.darkMode := App.darkMode st |}.

Definition setError (v : string) (st : App.State) : App.State :=
  {| App.sourceZip1 := App.sourceZip1 st; App.sourceZip2 := App.sourceZip2 st;
     App.sourceZip3 := App.sourceZip3 st; App.sourceZip4 := App.sourceZip4 st;
     App.destZip := App.destZip st; App.results := App.results st;
     App.error := v; App.loading := App.loading st;
     App.darkMode := App.darkMode st |}.

Definition setLoading (v : bool) (st : App.State) : App.State :=
  {| App.sourceZip1 := App.sourceZip1 st; App.sourceZip2 := App.sourceZip2 st;
     App.sourceZip3 := App.sourceZip3 st; App.sourceZip4 := App.sourceZip4 st;
     App.destZip := App.destZip st; App.results := App.results st;
     App.error := App.error st; App.loading := v;
     App.darkMode := App.darkMode st |}.

Definition setDarkMode (v : bool) (st : App.State) : App.State :=
  {| App.sourceZip1 := App.sourceZip1 st; App.sourceZip2 := App.sourceZip2 st;
     App.sourceZip3 := App.sourceZip3 st; App.sourceZip4 := App.sourceZip4 st;
     App.destZip := App.destZip st; App.results := App.results st;
     App.error := App.error st; App.loading := App.loading st;
     App.darkMode := v |}.

(** [onChange={e => setX(e.target.value)}] of the input of a field. *)
Definition onChange (f : field) (value : string) (st : App.State) : App.State :=
  match f with
  | SourceZip1 => setSourceZip1 value st
  | SourceZip2 => setSourceZip2 value st
  | SourceZip3 => setSourceZip3 value st
  | SourceZip4 => setSourceZip4 value st
  | DestZip => setDestZip value st
  end.

(** [onClick={() => setDarkMode(!darkMode)}] of the theme button. *)
Definition onClick (st : App.State) : App.State :=
  setDarkMode (negb (App.darkMode st)) st.

(** Lines 37-39 and 61-62 as the setter calls they are. The handler
    reads the codes from the state it was created in; its setters act
    on the state current when they run. *)
Definition begin (st : App.State) : App.State :=
  setLoading true (setResults [] (setError "" st)).

Definition finish (final : list Batch.OutcomeRecord) (st : App.State) : App.State :=
  setLoading false (setResults final st).

(** What the user does to the page: type in a field, press the theme
    button, submit the form. [Submit] is the event the form receives,
    which the browser sends only when no [required] input is empty. *)
Inductive event : Type :=
| Change (f : field) (value : string)
| Click
| Submit.

Section WithEngine.
Context {engine : Engine}.

(** One event, handled to its end. *)
Definition handle (ev : event) (st : App.State) : M App.State :=
  match ev with
  | Change f value => fun w => (onChange f value st, w)
  | Click => fun w => (onClick st, w)
  | Submit => App.handleSubmit st
  end.

Fixpoint handle_all (evs : list event) (st : App.State) : M App.State :=
  match evs with
  | [] => fun w => (st, w)
  | ev :: rest =>
      fun w =>
        let (st', w') := handle ev st w in
        handle_all rest st' w'
  end.

End WithEngine.
End Handlers.

(* ------------------------------------------------------------------ *)
(** * The [styles] constant and the rendered tree (lines 65-224) *)
(* ------------------------------------------------------------------ *)

Module View.

(** A value of a style object: a number, a string, or [undefined]. *)
Inductive css : Type :=
| num (n : Z)
| str (s : string)
| undefined.

(** A style object: its keys in insertion order, one entry per key. *)
Definition style : Type := list (string * css).

Fixpoint lookup (key : string) (o : style) : option css :=
  match o with
  | [] => None
  | (k, v) :: rest => if String.eqb k key then Some v else lookup key rest
  end.

(** [o.key]: an absent key reads as [undefined]. *)
Definition get (key : string) (o : style) : css :=
  match lookup key o with
  | Some v => v
  | None => undefined
  end.

(** [o[key] = v]: an existing key keeps its place. *)
Fixpoint set (key : string) (v : css) (o : style) : style :=
  match o with
  | [] => [(key, v)]
  | (k, w) :: rest =>
      if String.eqb k key then (k, v) :: rest else (k, w) :: set key v rest
  end.

(** [{ ...a, ...b }] *)
Definition spread (a b : style) : style :=
  fold_left (fun o kv => set (fst kv) (snd kv) o) b a.

Definition styles_app : style :=
  [("minHeight", str "100vh"); ("padding", str "20px");
   ("fontFamily", str "Segoe UI, Tahoma, Geneva, Verdana, sans-serif");
   ("transition", str "background 0.3s ease")].

(** [styles.light] and [styles.dark]. *)
Record theme : Type := {
  app : style;
  title : style;
  footer : style
}.

Definition styles_light : theme :=
  {| app := [("backgroundColor", str "#fff"); ("color", str "#000")];
     title := [("color", str "#2c3e50")];
     footer := [("color", str "#555")] |}.

Definition styles_dark : theme :=
  {| app := [("backgroundColor", str "#1e1e1e"); ("color", str "#f5f5f5")];
     title := [("color", str "#f5f5f5")];
     footer := [("color", str "#aaa")] |}.

Definition styles_topBar : style :=
  [("display", str "flex"); ("justifyContent", str "space-between");
   ("alignItems", str "center"); ("flexWrap", str "wrap"); ("marginBottom", num 30)].

Definition styles_toggleBtn : style :=
  [("padding", str "10px 20px"); ("border", str "none"); ("borderRadius", num 8);
   ("cursor", str "pointer"); ("backgroundColor", str "#3498db"); ("color", str "#fff");
   ("fontSize", num 14)].

Definition styles_form : style :=
  [("display", str "flex"); ("flexDirection", str "column"); ("alignItems", str "center")].

Definition styles_inputRow : style :=
  [("display", str "flex"); ("flexWrap", str "wrap"); ("justifyContent", str "center");
   ("gap", num 15); ("marginBottom", num 15)].

Definition styles_input : style :=
  [("padding", str "12px 16px"); ("fontSize", num 16); ("borderRadius", num 8);
   ("border", str "1.5px solid #ccc"); ("minWidth", str "100px")].

Definition styles_button : style :=
  [("padding", str "14px 30px"); ("fontSize", num 16); ("backgroundColor", str "#3498db");
   ("color", str "#fff"); ("border", str "none"); ("borderRadius", num 8);
   ("cursor", str "pointer"); ("fontWeight", str "600")].

Definition styles_resultCard : style :=
  [("flex", str "1 1 45%"); ("padding", num 20); ("borderRadius", num 12);
   ("boxShadow", str "0 4px 10px rgba(0,0,0,0.1)"); ("margin", num 10)].

Definition styles_resultRow : style :=
  [("display", str "flex"); ("justifyContent", str "space-between"); ("fontSize", num 16);
   ("marginBottom", num 8)].

Definition styles_label : style := [("fontWeight", str "600")].

Definition styles_error : style := [("color", str "#a94442"); ("fontWeight", str "600")].

Definition styles_grid : style :=
  [("display", str "flex"); ("flexWrap", str "wrap"); ("justifyContent", str "center");
   ("marginTop", num 30)].

Definition styles_footer : style :=
  [("marginTop", num 40); ("fontSize", num 14); ("textAlign", str "center")].

(** The value of a prop of an element. *)
Inductive prop : Type :=
| Style (o : style)
| Text (s : string)
| Flag (b : bool)
| Key (index : nat)
| OnChange (f : Handlers.field)
| OnClick
| OnSubmit.

(** A rendered node: an element, a piece of literal text, a string or a
    Number put in braces ([undefined] shows nothing), a fragment, or
    the [false] that [&&] leaves and that shows nothing. *)
Inductive node : Type :=
| El (tag : string) (props : list (string * prop)) (children : list node)
| Txt (s : string)
| StrExpr (v : option string)
| NumExpr (x : option number)
| Fragment (children : list node)
| Nothing.

(** [const themeStyles = darkMode ? styles.dark : styles.light] *)
Definition themeStyles (darkMode : bool) : theme :=
  if darkMode then styles_dark else styles_light.

(** [r.error ? ... : ...] takes its first branch when the message is
    there and not empty. *)
Definition truthy (v : option string) : bool := negb (falsy v).

(** Lines 93-101. *)
Definition cardStyle (darkMode : bool) (r : Batch.OutcomeRecord) : style :=
  set "color" (if darkMode then str "#000" else str "#000")
    (set "backgroundColor"
       (if truthy (Batch.error (Batch.entry r)) then str "#f8d7da"
        else if Batch.isMin r then str "#d4edda"
             else str "#eaf2f8")
       (spread [] styles_resultCard)).

(** Lines 109-118. *)
Definition figures (r : Batch.OutcomeRecord) : node :=
  Fragment
    [El "div" [("style", Style styles_resultRow)]
        [El "span" [("style", Style styles_label)] [Txt "Distance:"];
         El "span" [] [NumExpr (Batch.distanceKm (Batch.entry r)); Txt " km / ";
                       NumExpr (Batch.distanceMiles (Batch.entry r)); Txt " miles"]];
     El "div" [("style", Style styles_resultRow)]
        [El "span" [("style", Style styles_label)] [Txt "Duration:"];
         El "span" [] [NumExpr (Batch.durationMins (Batch.entry r)); Txt " minutes"]]].

(** Lines 103-120. *)
Definition card (darkMode : bool) (index : nat) (r : Batch.OutcomeRecord) : node :=
  El "div" [("key", Key index); ("style", Style (cardStyle darkMode r))]
     [El "h3" [] [Txt "From ZIP: "; StrExpr (Some (Batch.source (Batch.entry r)))];
      if truthy (Batch.error (Batch.entry r))
      then El "p" [("style", Style styles_error)] [StrExpr (Batch.error (Batch.entry r))]
      else figures r].

(** [results.map((r, index) => ...)] *)
Fixpoint cards (darkMode : bool) (index : nat) (results : list Batch.OutcomeRecord)
  : list node :=
  match results with
  | [] => []
  | r :: rest => card darkMode index r :: cards darkMode (Datatypes.S index) rest
  end.

(** Lines 90-124: [results.length > 0 && (...)]. The array that [map]
    returns is given as the children of the grid. *)
Definition grid (st : App.State) : node :=
  match App.results st with
  | [] => Nothing
  | _ :: _ => El "div" [("style", Style styles_grid)]
                 (cards (App.darkMode st) 0 (App.results st))
  end.

(** Lines 78-81 and 84. *)
Definition input (f : Handlers.field) (value placeholder : string) (o : style)
           (loading : bool) : node :=
  El "input" [("type", Text "text"); ("value", Text value); ("onChange", OnChange f);
              ("required", Flag true); ("placeholder", Text placeholder);
              ("style", Style o); ("disabled", Flag loading)] [].

(** Lines 76-88. *)
Definition form (st : App.State) : node :=
  El "form" [("onSubmit", OnSubmit); ("style", Style styles_form)]
     [El "div" [("style", Style styles_inputRow)]
         [input Handlers.SourceZip1 (App.sourceZip1 st) "Source ZIP 1" styles_input
                (App.loading st);
          input Handlers.SourceZip2 (App.sourceZip2 st) "Source ZIP 2" styles_input
                (App.loading st);
          input Handlers.SourceZip3 (App.sourceZip3 st) "Source ZIP 3" styles_input
                (App.loading st);
          input Handlers.SourceZip4 (App.sourceZip4 st) "Source ZIP 4" styles_input
                (App.loading st)];
      input Handlers.DestZip (App.destZip st) "Destination ZIP"
            (set "margin" (str "20px auto")
               (set "maxWidth" (str "60%")
                  (set "textAlign" (str "center") (spread [] styles_input))))
            (App.loading st);
      El "button" [("type", Text "submit"); ("style", Style styles_button);
                   ("disabled", Flag (App.loading st))]
         [StrExpr (Some (if App.loading st then "Calculating..." else "Calculate Distance"))]].

(** Lines 69-74. *)
Definition topBar (st : App.State) : node :=
  El "div" [("style", Style styles_topBar)]
     [El "h1" [("style", Style (title (themeStyles (App.darkMode st))))]
         [Txt "🚗 ZIP Code Distance Calculator"];
      El "button" [("onClick", OnClick); ("style", Style styles_toggleBtn)]
         [StrExpr (Some (if App.darkMode st then "☀ Light Mode" else "🌙 Dark Mode"))]].

(** Lines 67-130: what the component returns. *)
Definition render (st : App.State) : node :=
  El "div" [("style", Style (spread (spread [] styles_app)
                                    (app (themeStyles (App.darkMode st)))))]
     [topBar st;
      form st;
      grid st;
      El "footer"
         [("style", Style (set "color" (get "color" (footer (themeStyles (App.darkMode st))))
                             (spread [] styles_footer)))]
         [Txt "Powered by Bespoke Systems"]].

End View.

(** A body of the expected shape whose distance has no value and whose
    duration is 600 seconds. *)
Definition distance_without_value : jsval :=
  response_of "OK" [Obj [("status", Str "OK"); ("distance", Obj []);
                         ("duration", Obj [("value", Num (of_Z 600))])]].

(** U+3000 (ideographic space) and U+00A0 (no-break space) as the
    bytes of their encodings, and the letter U+00E0, whose last byte is
    the last byte of U+00A0. *)
Definition ideographic_space : string := String "227" (String "128" (String "128" "")).
Definition no_break_space : string := String "194" (String "160" "").
Definition a_grave : string := String "195" (String "160" "").

(** A code typed with such white space around it. *)
Definition wide_padded : string :=
  ideographic_space ++ " 07305" ++ no_break_space ++ ideographic_space.

(** The sample sources typed with white space around them. *)
Definition padded_sources : list string := [" 95131"; "32220 "; "  07305  "; "75050"].

(* ------------------------------------------------------------------ *)
(** * More vocabulary *)
(* ------------------------------------------------------------------ *)

(** A string made of white-space characters only, read from its start
    or, with [back], from its end. *)
Fixpoint whites (back : bool) (s : string) : bool :=
  match s with
  | String c1 r1 =>
      if white1 c1 then whites back r1
      else match r1 with
           | String c2 r2 =>
               if pair_white back c1 c2 then whites back r2
               else match r2 with
                    | String c3 r3 => triple_white back c1 c2 c3 && whites back r3
                    | EmptyString => false
                    end
           | EmptyString => false
           end
  | EmptyString => true
  end.

(** A string made of white space only. *)
Definition all_white (s : string) : bool := whites false s.

(** A string whose first character is white space, and one whose last
    character is. *)
Definition starts_white (s : string) : bool :=
  match white_head false s with Some _ => true | None => false end.

Definition ends_white (s : string) : bool :=
  match white_head true (reverse s "") with Some _ => true | None => false end.

(** The first byte of a white-space character. *)
Definition starter (c : ascii) : bool :=
  let n := N_of_ascii c in
  (white1 c || (n =? 194) || (n =? 225) || (n =? 226) || (n =? 227) || (n =? 239))%N.

(** [padded] is [code] with white space before and after it. *)
Definition padded_from (code padded : string) : Prop :=
  exists before after,
    all_white before = true /\ all_white after = true /\
    padded = before ++ code ++ after.

(** [x] is within [2^-k] of the rational [q]. *)
Definition near (x : number) (q : Q) (k : positive) : Prop :=
  (Qabs (to_Q x - q) <= 1 # 2 ^ k)%Q.

(** An element with the status "OK" whose distance and duration have
    Numbers as values. *)
Definition element_with (meters seconds : number) : jsval :=
  Obj [("status", Str "OK");
       ("distance", Obj [("value", Num meters)]);
       ("duration", Obj [("value", Num seconds)])].

(** [f] is what [parseFloat(v.toFixed(2))] makes of [v]. [NaN] and the
    infinities come back as they are and a zero comes back as [+0]. A
    finite [v] below 10^21 in magnitude is written as the one whole
    number [n] of hundredths with [n - 1/2 <= 100 |v| < n + 1/2], halves
    going away from zero, under the sign of [v], and [f] is the Number
    read back from that text; from 10^21 on the text is that of [v]
    and [f] is [v]. *)
Definition to_two_places (v f : number) : Prop :=
  match v with
  | S754_nan => f = NaN
  | S754_infinity _ => f = v
  | S754_zero _ => f = S754_zero false
  | S754_finite s m e =>
      let x := to_Q (S754_finite false m e) in
      ((x < inject_Z (10 ^ 21))%Q ->
       exists n,
         0 <= n /\
         (inject_Z n - (1 # 2) <= inject_Z 100 * x)%Q /\
         (inject_Z 100 * x < inject_Z n + (1 # 2))%Q /\
         toFixed v 2 = FsDecimal s n 2 /\
         f = match n with
             | Zpos p => div (S754_finite s p 0) (S754_finite false 100 0)
             | _ => S754_zero s
             end) /\
      ((inject_Z (10 ^ 21) <= x)%Q -> toFixed v 2 = FsToString v /\ f = v)
  end.

(** A prop of an element, by its name. *)
Fixpoint prop_of (name : string) (props : list (string * View.prop)) : option View.prop :=
  match props with
  | [] => None
  | (k, v) :: rest => if String.eqb k name then Some v else prop_of name rest
  end.

(** The five inputs are [required] (lines 78-81 and 84) and the form
    does not switch validation off: the browser calls [onSubmit] only
    when no [required] input of the form has the empty string as its
    value. A value made of white space is not empty. *)
Definition valueMissing (n : View.node) : bool :=
  match n with
  | View.El _ props _ =>
      match prop_of "required" props, prop_of "value" props with
      | Some (View.Flag true), Some (View.Text value) => String.eqb value ""
      | _, _ => false
      end
  | _ => false
  end.

Fixpoint valid (n : View.node) : bool :=
  match n with
  | View.El _ _ children =>
      negb (valueMissing n)
      && (fix all (l : list View.node) : bool :=
            match l with
            | [] => true
            | c :: rest => valid c && all rest
            end) children
  | View.Fragment children =>
      (fix all (l : list View.node) : bool :=
         match l with
         | [] => true
         | c :: rest => valid c && all rest
         end) children
  | _ => true
  end.

Definition submittable (st : App.State) : bool := valid (View.form st).

(** The form with three spaces typed as the first source. *)
Definition blank_first : App.State :=
  {| App.sourceZip1 := "   "; App.sourceZip2 := "32220";
     App.sourceZip3 := "07305"; App.sourceZip4 := "75050";
     App.destZip := "60601"; App.results := []; App.error := "";
     App.loading := false; App.darkMode := false |}.

(** The URLs a batch requests. *)
Definition urls (sourceZips : list string) (destZip : string) : list string :=
  map (fun zip => Adapter.url (trim zip) (trim destZip)) sourceZips.

(** A parsed body of the expected shape: [first] is the first element
    of the first row, [elements] the other elements of that row and
    [rows] the other rows. *)
Definition body_of (status first : jsval) (elements rows : list jsval) : jsval :=
  Obj [("status", status);
       ("rows", Arr (Obj [("elements", Arr (first :: elements))] :: rows))].

(** The [disabled] prop of an element, when it has one. *)
Fixpoint disabled_prop (props : list (string * View.prop)) : option bool :=
  match props with
  | [] => None
  | (k, v) :: rest =>
      if String.eqb k "disabled"
      then match v with View.Flag b => Some b | _ => None end
      else disabled_prop rest
  end.

(** The elements of a tree that carry a [disabled] prop, in document
    order, each with its tag and the value of the prop. *)
Fixpoint controls (n : View.node) : list (string * bool) :=
  match n with
  | View.El tag props children =>
      (match disabled_prop props with Some b => [(tag, b)] | None => [] end
       ++ (fix all (l : list View.node) : list (string * bool) :=
             match l with
             | [] => []
             | c :: rest => controls c ++ all rest
             end) children)%list
  | View.Fragment children =>
      (fix all (l : list View.node) : list (string * bool) :=
         match l with
         | [] => []
         | c :: rest => (controls c ++ all rest)%list
         end) children
  | _ => []
  end.

(** What is true of the state whenever no handler is running. *)
Definition at_rest (st : App.State) : Prop :=
  App.error st = "" /\
  App.loading st = false /\
  (App.results st = [] \/ List.length (App.results st) = 4%nat) /\
  Forall (fun r => xorb (has_result (Batch.entry r)) (has_error (Batch.entry r)) = true)
         (App.results st).

(* ------------------------------------------------------------------ *)
(** * The order on Numbers *)
(* ------------------------------------------------------------------ *)

Section NumberOrder.

Local Ltac cases :=
  repeat match goal with
    | H : context [Z.compare ?a ?b] |- _ => destruct (Z.compare_spec a b)
    | |- context [Z.compare ?a ?b] => destruct (Z.compare_spec a b)
    | H : context [Pos.compare ?a ?b] |- _ => destruct (Pos.compare_spec a b)
    | |- context [Pos.compare ?a ?b] => destruct (Pos.compare_spec a b)
    end;
  simpl in *; try discriminate; try reflexivity; try lia.

Local Ltac unfold_order :=
  unfold le, lt, strict_eq, SFleb, SFltb, SFeqb, SFcompare in *;
  change (Pos.compare_cont Eq) with Pos.compare in *.

Lemma lt_le (a b : number) : lt a b = true -> le a b = true.
Proof. unfold le, lt, SFleb, SFltb. destruct (SFcompare a b) as [[]|]; easy. Qed.

Lemma eq_le (a b : number) : strict_eq a b = true -> le a b = true.
Proof. unfold le, strict_eq, SFleb, SFeqb. destruct (SFcompare a b) as [[]|]; easy. Qed.

Lemma le_neq_lt (a b : number) :
  le a b = true -> strict_eq a b = false -> lt a b = true.
Proof.
  unfold le, lt, strict_eq, SFleb, SFltb, SFeqb. destruct (SFcompare a b) as [[]|]; easy.
Qed.


Lemma le_not_nan (a b : number) :
  le a b = true -> is_nan a = false /\ is_nan b = false.
Proof. destruct a, b; simpl; auto; discriminate. Qed.

Lemma eq_not_nan (a b : number) :
  strict_eq a b = true -> is_nan a = false /\ is_nan b = false.
Proof. intros H. apply le_not_nan, eq_le, H. Qed.

Lemma le_refl (a : number) : is_nan a = false -> le a a = true.
Proof.
  destruct a as [s|s| |s m e]; simpl; try discriminate; intros _;
    unfold_order; try destruct s; cases.
Qed.

Lemma le_total (a b : number) :
  is_nan a = false -> is_nan b = false -> lt a b = false -> le b a = true.
Proof.
  destruct a as [s|s| |s m e], b as [s'|s'| |s' m' e']; simpl; try discriminate;
    intros _ _; unfold_order; try destruct s; try destruct s'; cases.
Qed.

Lemma le_antisym (a b : number) :
  le a b = true -> le b a = true -> strict_eq a b = true.
Proof.
  destruct a as [s|s| |s m e], b as [s'|s'| |s' m' e']; simpl; try discriminate;
    unfold_order; try destruct s; try destruct s'; cases.
Qed.

Lemma lt_not_le (a b : number) : lt a b = true -> le b a = false.
Proof.
  intros H. destruct (le b a) eqn:E; [|reflexivity].
  pose proof (le_antisym a b (lt_le _ _ H) E) as F. revert H F.
  unfold lt, strict_eq, SFltb, SFeqb. destruct (SFcompare a b) as [[]|]; discriminate.
Qed.

Lemma le_trans (a b c : number) :
  le a b = true -> le b c = true -> le a c = true.
Proof.
  destruct a as [s|s| |s m e], b as [s'|s'| |s' m' e'], c as [t|t| |t n k];
    simpl; try discriminate;
    unfold_order; try destruct s; try destruct s'; try destruct t; cases.
Qed.

Lemma eq_sym (a b : number) : strict_eq a b = true -> strict_eq b a = true.
Proof.
  intros H. destruct (eq_not_nan _ _ H) as [Ha Hb].
  apply le_antisym.
  - destruct (lt a b) eqn:E.
    + revert H E. unfold strict_eq, lt, SFeqb, SFltb.
      destruct (SFcompare a b) as [[]|]; discriminate.
    + now apply le_total.
  - now apply eq_le.
Qed.

Lemma eq_trans (a b c : number) :
  strict_eq a b = true -> strict_eq b c = true -> strict_eq a c = true.
Proof.
  intros H1 H2. apply le_antisym.
  - eapply le_trans; apply eq_le; eassumption.
  - eapply le_trans; apply eq_le, eq_sym; eassumption.
Qed.

Lemma le_Infinity (a : number) : is_nan a = false -> le a Infinity = true.
Proof. destruct a as [s|s| |s m e]; simpl; try discriminate; now destruct s. Qed.

End NumberOrder.

(* ------------------------------------------------------------------ *)
(** * [Math.min] *)
(* ------------------------------------------------------------------ *)

Section MathMin.

Lemma eq_refl_number (a : number) : not_nan a -> strict_eq a a = true.
Proof. intros H. apply le_antisym; now apply le_refl. Qed.

(** One step of the loop keeps a lowest value that is below the old
    one and below the new argument, and equal to one of them. *)
Lemma min_step (lowest x : number) :
  not_nan lowest -> not_nan x ->
  let l1 := if is_neg_zero x && is_pos_zero lowest then S754_zero true else lowest in
  let l2 := if lt x l1 then x else l1 in
  not_nan l2 /\ le l2 lowest = true /\ le l2 x = true
  /\ (strict_eq l2 lowest = true \/ l2 = x).
Proof.
  intros Hl Hx l1 l2.
  assert (H1 : strict_eq l1 lowest = true /\ not_nan l1).
  { subst l1. destruct (is_neg_zero x && is_pos_zero lowest) eqn:E.
    - apply andb_prop in E as [_ E]. destruct lowest as [[]| | |]; easy.
    - split; [now apply eq_refl_number | assumption]. }
  destruct H1 as [H1 N1]. subst l2.
  destruct (lt x l1) eqn:E.
  - repeat split; auto.
    + eapply le_trans; [apply lt_le, E | apply eq_le, H1].
    + now apply le_refl.
  - repeat split; auto.
    + now apply eq_le.
    + now apply le_total.
Qed.

Lemma min_loop_not_nan (l : list number) :
  forall lowest, not_nan lowest -> not_nan (min_loop lowest l) -> Forall not_nan l.
Proof.
  induction l as [|x l IH]; intros lowest Hl H; [constructor|].
  simpl in H. destruct (is_nan x) eqn:Ex; [discriminate|].
  destruct (min_step lowest x Hl Ex) as (N & _).
  constructor; [exact Ex|]. eapply IH; [exact N | exact H].
Qed.

Lemma min_loop_spec (l : list number) :
  forall lowest, not_nan lowest -> Forall not_nan l ->
  let m := min_loop lowest l in
  not_nan m /\ le m lowest = true /\ Forall (fun x => le m x = true) l
  /\ (strict_eq m lowest = true \/ Exists (fun x => strict_eq m x = true) l).
Proof.
  induction l as [|x l IH]; intros lowest Hl Hall; simpl.
  - repeat split; auto using le_refl, eq_refl_number.
  - inversion Hall as [|? ? Hx Hrest]; subst. rewrite Hx.
    destruct (min_step lowest x Hl Hx) as (N & L1 & L2 & D).
    destruct (IH _ N Hrest) as (Nm & Lm & Fm & Dm).
    repeat split; auto.
    + eapply le_trans; eassumption.
    + constructor; [eapply le_trans; eassumption | assumption].
    + destruct Dm as [Dm | Dm].
      * destruct D as [D | D].
        -- left. eapply eq_trans; eassumption.
        -- right. constructor.
           eapply eq_trans; [exact Dm | rewrite D; now apply eq_refl_number].
      * right. now constructor 2.
Qed.

Lemma min_loop_has_nan (l : list number) :
  forall lowest, Exists (fun x => is_nan x = true) l -> min_loop lowest l = NaN.
Proof.
  induction l as [|x l IH]; intros lowest H; inversion H; subst; simpl.
  - now rewrite H1.
  - destruct (is_nan x); [reflexivity | now apply IH].
Qed.

(** [Math.min(...args)] is [NaN] as soon as an argument is [NaN] or
    [undefined]; otherwise it is below every argument and equal to
    [Infinity] or to one of them. *)
Lemma Math_min_spec (args : list (option number)) :
  not_nan (Math_min args) ->
  Forall (fun a => exists x, a = Some x /\ not_nan x /\ le (Math_min args) x = true) args.
Proof.
  unfold Math_min. intros H.
  assert (Hn : Forall not_nan (map coerce args))
    by exact (min_loop_not_nan _ Infinity eq_refl H).
  destruct (min_loop_spec (map coerce args) Infinity eq_refl Hn) as (_ & _ & F & _).
  rewrite Forall_map in Hn, F. rewrite Forall_forall in *.
  intros a Ha. specialize (Hn a Ha). specialize (F a Ha).
  destruct a as [x|]; [|discriminate]. exists x. auto.
Qed.

Lemma Math_min_least (args : list (option number)) (d : number) :
  In (Some d) args ->
  Forall (fun a => exists x, a = Some x /\ le d x = true) args ->
  strict_eq d (Math_min args) = true.
Proof.
  intros Hin Hall. unfold Math_min.
  assert (Hn : Forall not_nan (map coerce args)).
  { rewrite Forall_map. rewrite Forall_forall in *. intros a Ha.
    destruct (Hall a Ha) as (x & -> & Hx). apply le_not_nan in Hx as [_ Hx]. exact Hx. }
  destruct (min_loop_spec (map coerce args) Infinity eq_refl Hn) as (Nm & _ & F & D).
  apply le_antisym.
  - destruct D as [D | D].
    + eapply le_trans; [apply le_Infinity | apply eq_le, eq_sym, D].
      rewrite Forall_forall in Hall. destruct (Hall _ Hin) as (x & Ex & Hx).
      apply le_not_nan in Hx as [Hx _]. exact Hx.
    + rewrite Exists_exists in D. destruct D as (y & Hy & E).
      apply in_map_iff in Hy as (a & <- & Ha).
      rewrite Forall_forall in Hall. destruct (Hall a Ha) as (x & -> & Hx). simpl in E.
      eapply le_trans; [exact Hx | apply eq_le, eq_sym, E].
  - rewrite Forall_forall in F. apply (F d). apply in_map_iff. now exists (Some d).
Qed.

End MathMin.

(* ------------------------------------------------------------------ *)
(** * White space around the codes *)
(* ------------------------------------------------------------------ *)

Section WhiteSpace.

Lemma append_assoc (a b c : string) : ((a ++ b) ++ c)%string = (a ++ (b ++ c))%string.
Proof. induction a as [|x a IH]; simpl; [reflexivity | now rewrite IH]. Qed.

Lemma append_nil_r (a : string) : (a ++ "")%string = a.
Proof. induction a as [|x a IH]; simpl; [reflexivity | now rewrite IH]. Qed.

Lemma reverse_acc (s : string) :
  forall acc, reverse s acc = (reverse s "" ++ acc)%string.
Proof.
  induction s as [|c s IH]; intros acc; simpl; [reflexivity|].
  rewrite (IH (String c acc)), (IH (String c "")), append_assoc. reflexivity.
Qed.

Lemma reverse_append (a b : string) :
  reverse (a ++ b) "" = (reverse b "" ++ reverse a "")%string.
Proof.
  induction a as [|c a IH]; simpl; [now rewrite append_nil_r|].
  rewrite (reverse_acc (a ++ b)), IH, (reverse_acc a (String c "")), append_assoc.
  reflexivity.
Qed.

Lemma reverse_involutive (s : string) : reverse (reverse s "") "" = s.
Proof.
  induction s as [|c s IH]; simpl; [reflexivity|].
  rewrite (reverse_acc s), reverse_append, IH. reflexivity.
Qed.

Lemma strip_head (back : bool) (s : string) :
  strip back s = match white_head back s with
                 | Some rest => strip back rest
                 | None => s
                 end.
Proof.
  destruct s as [|c1 [|c2 [|c3 r3]]]; simpl; try reflexivity;
    destruct (white1 c1); try reflexivity;
    destruct (pair_white back c1 c2); try reflexivity;
    destruct (triple_white back c1 c2 c3); reflexivity.
Qed.

Lemma whites_head (back : bool) (s : string) :
  whites back s = match s with
                  | EmptyString => true
                  | String _ _ => match white_head back s with
                                  | Some rest => whites back rest
                                  | None => false
                                  end
                  end.
Proof.
  destruct s as [|c1 [|c2 [|c3 r3]]]; simpl; try reflexivity;
    destruct (white1 c1); try reflexivity;
    destruct (pair_white back c1 c2); try reflexivity;
    destruct (triple_white back c1 c2 c3); reflexivity.
Qed.

Lemma white_head_shorter (back : bool) (s rest : string) :
  white_head back s = Some rest -> (String.length rest < String.length s)%nat.
Proof.
  destruct s as [|c1 [|c2 [|c3 r3]]]; simpl; try discriminate;
    destruct (white1 c1); try discriminate; try (intros [= <-]; simpl; lia);
    destruct (pair_white back c1 c2); try discriminate; try (intros [= <-]; simpl; lia);
    destruct (triple_white back c1 c2 c3); try discriminate; intros [= <-]; simpl; lia.
Qed.

Lemma white_head_append (back : bool) (s rest t : string) :
  white_head back s = Some rest -> white_head back (s ++ t) = Some (rest ++ t)%string.
Proof.
  destruct s as [|c1 [|c2 [|c3 r3]]]; simpl; try discriminate;
    destruct (white1 c1); try discriminate; try (now intros [= <-]);
    destruct (pair_white back c1 c2); try discriminate; try (now intros [= <-]);
    destruct (triple_white back c1 c2 c3); try discriminate; now intros [= <-].
Qed.

(** What [white_head] takes off is one white-space character. *)
Lemma white_head_split (back : bool) (s rest : string) :
  white_head back s = Some rest ->
  exists cp, s = (cp ++ rest)%string /\ white_head back cp = Some "" /\ cp <> "".
Proof.
  destruct s as [|c1 [|c2 [|c3 r3]]]; simpl; try discriminate.
  - destruct (white1 c1) eqn:E1; [|discriminate]. intros [= <-].
    exists (String c1 ""). simpl. rewrite E1. repeat split. discriminate.
  - destruct (white1 c1) eqn:E1.
    + intros [= <-]. exists (String c1 ""). simpl. rewrite E1. repeat split. discriminate.
    + destruct (pair_white back c1 c2) eqn:E2; [|discriminate]. intros [= <-].
      exists (String c1 (String c2 "")). simpl. rewrite E1, E2. repeat split. discriminate.
  - destruct (white1 c1) eqn:E1.
    + intros [= <-]. exists (String c1 ""). simpl. rewrite E1. repeat split. discriminate.
    + destruct (pair_white back c1 c2) eqn:E2.
      * intros [= <-].
        exists (String c1 (String c2 "")). simpl. rewrite E1, E2. repeat split. discriminate.
      * destruct (triple_white back c1 c2 c3) eqn:E3; [|discriminate]. intros [= <-].
        exists (String c1 (String c2 (String c3 ""))). simpl. rewrite E1, E2, E3.
        repeat split. discriminate.
Qed.

Lemma by_length (P : string -> Prop) :
  (forall s, (forall t, (String.length t < String.length s)%nat -> P t) -> P s) ->
  forall s, P s.
Proof.
  intros H s. remember (String.length s) as n eqn:E. revert s E.
  induction n as [n IH] using lt_wf_ind. intros s ->.
  apply H. intros t Ht. now apply (IH (String.length t)).
Qed.

Lemma strip_whites_before (back : bool) (p s : string) :
  whites back p = true -> strip back (p ++ s) = strip back s.
Proof.
  revert p. apply (by_length (fun p => whites back p = true -> strip back (p ++ s) = strip back s)).
  intros p IH H. rewrite whites_head in H. destruct p as [|c p']; [reflexivity|].
  destruct (white_head back (String c p')) as [rest|] eqn:E; [|discriminate].
  rewrite strip_head, (white_head_append _ _ _ s E).
  apply IH; [now apply white_head_shorter in E | exact H].
Qed.

Lemma strip_whites (back : bool) (p : string) : whites back p = true -> strip back p = "".
Proof.
  intros H. rewrite <- (append_nil_r p). now rewrite strip_whites_before.
Qed.

Lemma whites_append (back : bool) (a c : string) :
  whites back a = true -> whites back c = true -> whites back (a ++ c) = true.
Proof.
  intros Ha Hc. revert a Ha.
  apply (by_length (fun a => whites back a = true -> whites back (a ++ c) = true)).
  intros a IH H. destruct a as [|x a']; [exact Hc|].
  rewrite whites_head in H.
  destruct (white_head back (String x a')) as [rest|] eqn:E; [|discriminate].
  rewrite whites_head. pose proof (white_head_append _ _ _ c E) as E'.
  simpl append in *. rewrite E'.
  apply IH; [now apply white_head_shorter in E | exact H].
Qed.

Lemma strip_decompose (back : bool) (s : string) :
  exists p, whites back p = true /\ s = (p ++ strip back s)%string
            /\ white_head back (strip back s) = None.
Proof.
  revert s. apply by_length. intros s IH.
  rewrite strip_head. destruct (white_head back s) as [rest|] eqn:E.
  - destruct (white_head_split _ _ _ E) as (cp & -> & Hcp & Hne).
    destruct (IH rest (white_head_shorter _ _ _ E)) as (p & Hp & Hrest & Hnone).
    exists (cp ++ p)%string. repeat split.
    + apply whites_append; [|exact Hp]. rewrite whites_head.
      destruct cp; [contradiction|]. now rewrite Hcp.
    + rewrite append_assoc. now rewrite <- Hrest.
    + exact Hnone.
  - exists "". repeat split. exact E.
Qed.

Lemma white1_spec (c : ascii) :
  white1 c = true <->
  (9 <= N_of_ascii c <= 13 \/ N_of_ascii c = 32)%N.
Proof.
  unfold white1. cbv zeta.
  rewrite orb_true_iff, andb_true_iff, N.eqb_eq, !N.leb_le. tauto.
Qed.

Lemma white2_spec (c1 c2 : ascii) :
  white2 c1 c2 = true <-> (N_of_ascii c1 = 194 /\ N_of_ascii c2 = 160)%N.
Proof. unfold white2. rewrite andb_true_iff, !N.eqb_eq. tauto. Qed.

Lemma white3_spec (c1 c2 c3 : ascii) :
  white3 c1 c2 c3 = true <->
  (let a := N_of_ascii c1 in
   let b := N_of_ascii c2 in
   let c := N_of_ascii c3 in
   (a = 225 /\ b = 154 /\ c = 128)
   \/ (a = 226 /\ b = 128 /\ (128 <= c <= 138 \/ c = 168 \/ c = 169 \/ c = 175))
   \/ (a = 226 /\ b = 129 /\ c = 159)
   \/ (a = 227 /\ b = 128 /\ c = 128)
   \/ (a = 239 /\ b = 187 /\ c = 191))%N.
Proof.
  unfold white3. cbv zeta.
  rewrite !orb_true_iff, !andb_true_iff, !orb_true_iff, !andb_true_iff,
    !N.eqb_eq, !N.leb_le. tauto.
Qed.

Lemma starter_spec (c : ascii) :
  starter c = true <->
  (let n := N_of_ascii c in
   9 <= n <= 13 \/ n = 32 \/ n = 194 \/ n = 225 \/ n = 226 \/ n = 227 \/ n = 239)%N.
Proof.
  unfold starter. cbv zeta.
  rewrite !orb_true_iff, white1_spec, !N.eqb_eq. tauto.
Qed.

Lemma white1_starter (c : ascii) : white1 c = true -> starter c = true.
Proof. rewrite white1_spec, starter_spec. cbv zeta. lia. Qed.

Lemma white2_starter (c1 c2 : ascii) : white2 c1 c2 = true -> starter c1 = true.
Proof. rewrite white2_spec, starter_spec. cbv zeta. lia. Qed.

Lemma white3_starter (c1 c2 c3 : ascii) : white3 c1 c2 c3 = true -> starter c1 = true.
Proof. rewrite white3_spec, starter_spec. cbv zeta. lia. Qed.

Lemma whites_starter (c : ascii) (rest : string) :
  whites false (String c rest) = true -> starter c = true.
Proof.
  simpl. destruct (white1 c) eqn:E1; [intros _; now apply white1_starter|].
  destruct rest as [|c2 [|c3 r3]]; try discriminate.
  - destruct (white2 c c2) eqn:E2; [|discriminate]. intros _.
    now apply white2_starter in E2.
  - destruct (white2 c c2) eqn:E2; [intros _; now apply white2_starter in E2|].
    intros H. apply andb_prop in H as [H _]. now apply white3_starter in H.
Qed.

Lemma starter_not_second (c d : ascii) : starter d = true -> white2 c d = false.
Proof.
  intros H. apply not_true_iff_false. revert H.
  rewrite white2_spec, starter_spec. cbv zeta. lia.
Qed.

Lemma starter_not_inside (c d e : ascii) : starter d = true -> white3 c d e = false.
Proof.
  intros H. apply not_true_iff_false. revert H.
  rewrite white3_spec, starter_spec. cbv zeta. lia.
Qed.

Lemma starter_not_third (c c' d : ascii) : starter d = true -> white3 c c' d = false.
Proof.
  intros H. apply not_true_iff_false. revert H.
  rewrite white3_spec, starter_spec. cbv zeta. lia.
Qed.

(** White space that follows a string never completes a white-space
    character begun inside it. *)
Lemma white_head_none_append (s after : string) :
  white_head false s = None -> s <> "" -> whites false after = true ->
  white_head false (s ++ after) = None.
Proof.
  intros Hs Hne Ha. destruct after as [|d after'].
  { now rewrite append_nil_r. }
  pose proof (whites_starter _ _ Ha) as Hd.
  destruct s as [|c1 [|c2 [|c3 r3]]]; [contradiction| | |]; simpl in *.
  - destruct (white1 c1); [discriminate|].
    rewrite (starter_not_second c1 d Hd).
    destruct after' as [|e after'']; [reflexivity|].
    now rewrite (starter_not_inside c1 d e Hd).
  - destruct (white1 c1); [discriminate|].
    destruct (white2 c1 c2); [discriminate|].
    now rewrite (starter_not_third c1 c2 d Hd).
  - destruct (white1 c1); [discriminate|].
    destruct (white2 c1 c2); [discriminate|].
    destruct (white3 c1 c2 c3); [discriminate | reflexivity].
Qed.

(** White space after a string stays behind what [trimStart] keeps, or
    goes with it when the string is white space only. *)
Lemma strip_white_after (s after : string) :
  whites false after = true ->
  exists rest, whites false rest = true /\
               strip false (s ++ after) = (strip false s ++ rest)%string.
Proof.
  intros Ha. revert s. apply by_length. intros s IH.
  destruct s as [|c s'].
  { exists "". split; [reflexivity | now apply strip_whites]. }
  rewrite (strip_head false (String c s' ++ after)), (strip_head false (String c s')).
  destruct (white_head false (String c s')) as [r|] eqn:E.
  - rewrite (white_head_append _ _ _ after E).
    apply IH. now apply white_head_shorter in E.
  - rewrite (white_head_none_append _ _ E ltac:(discriminate) Ha).
    exists after. now split.
Qed.

Lemma pair_white_back (back : bool) (c1 c2 : ascii) :
  pair_white (negb back) c2 c1 = pair_white back c1 c2.
Proof. now destruct back. Qed.

Lemma triple_white_back (back : bool) (c1 c2 c3 : ascii) :
  triple_white (negb back) c3 c2 c1 = triple_white back c1 c2 c3.
Proof. now destruct back. Qed.

Lemma white2_not_white1 (c1 c2 : ascii) :
  white2 c1 c2 = true -> white1 c1 = false /\ white1 c2 = false.
Proof.
  intros H. split; apply not_true_iff_false; revert H;
    rewrite white2_spec, white1_spec; lia.
Qed.

Lemma white3_not_shorter (c1 c2 c3 : ascii) :
  white3 c1 c2 c3 = true ->
  white1 c1 = false /\ white1 c3 = false /\
  white2 c1 c2 = false /\ white2 c2 c3 = false /\
  white2 c2 c1 = false /\ white2 c3 c2 = false.
Proof.
  intros H. repeat split; apply not_true_iff_false; revert H;
    rewrite white3_spec, ?white2_spec, ?white1_spec; cbv zeta; lia.
Qed.

(** One white-space character read backwards is one read forwards. *)
Lemma white_character_reverse (back : bool) (cp : string) :
  white_head back cp = Some "" -> white_head (negb back) (reverse cp "") = Some "".
Proof.
  destruct cp as [|c1 [|c2 [|c3 r3]]]; simpl; try discriminate.
  - now destruct (white1 c1).
  - destruct (white1 c1) eqn:E1; [discriminate|].
    destruct (pair_white back c1 c2) eqn:E2; [|discriminate]. intros _.
    rewrite pair_white_back, E2.
    assert (white1 c2 = false) as ->; [|reflexivity].
    destruct back; simpl in E2; now apply white2_not_white1 in E2.
  - destruct (white1 c1) eqn:E1; [discriminate|].
    destruct (pair_white back c1 c2) eqn:E2; [discriminate|].
    destruct (triple_white back c1 c2 c3) eqn:E3; [|discriminate].
    intros [= ->]. simpl.
    rewrite triple_white_back, E3, pair_white_back.
    destruct back; simpl in *; apply white3_not_shorter in E3;
      destruct E3 as (A & B & C & D & E & F); now rewrite ?A, ?B, ?C, ?D, ?E, ?F.
Qed.

Lemma whites_reverse (back : bool) (s : string) :
  whites back s = true -> whites (negb back) (reverse s "") = true.
Proof.
  revert s. apply (by_length (fun s => whites back s = true ->
                                       whites (negb back) (reverse s "") = true)).
  intros s IH H. destruct s as [|c s']; [reflexivity|].
  rewrite whites_head in H.
  destruct (white_head back (String c s')) as [rest|] eqn:E; [|discriminate].
  destruct (white_head_split _ _ _ E) as (cp & Hs & Hcp & Hne).
  rewrite Hs, reverse_append.
  apply whites_append; [apply IH; [now apply white_head_shorter in E | exact H]|].
  apply white_character_reverse in Hcp.
  rewrite whites_head. destruct (reverse cp "") eqn:R; [reflexivity|].
  now rewrite Hcp.
Qed.

Lemma all_white_reverse (s : string) :
  all_white s = true -> whites true (reverse s "") = true.
Proof. apply (whites_reverse false). Qed.

Lemma trimStart_all_white (s : string) : all_white s = true -> trimStart s = "".
Proof. apply strip_whites. Qed.

Lemma trimStart_white_before (before s : string) :
  all_white before = true -> trimStart (before ++ s) = trimStart s.
Proof. apply strip_whites_before. Qed.

Lemma trimEnd_white_after (s after : string) :
  all_white after = true -> trimEnd (s ++ after) = trimEnd s.
Proof.
  intros H. unfold trimEnd. rewrite reverse_append.
  rewrite strip_whites_before; [reflexivity|]. now apply all_white_reverse.
Qed.

Lemma trim_padded (code padded : string) :
  padded_from code padded -> trim padded = trim code.
Proof.
  intros (before & after & Hb & Ha & ->). unfold trim.
  rewrite trimStart_white_before by assumption.
  destruct (strip_white_after code after Ha) as (rest & Hrest & E).
  unfold trimStart. rewrite E. now apply trimEnd_white_after.
Qed.

Lemma trim_all_white (s : string) : all_white s = true -> trim s = "".
Proof. intros H. unfold trim. now rewrite trimStart_all_white. Qed.

(** What [trim] does: it removes white space, all of it, from both ends
    and nothing else. *)
Lemma trim_spec (s : string) :
  padded_from (trim s) s /\
  starts_white (trim s) = false /\ ends_white (trim s) = false.
Proof.
  destruct (strip_decompose false s) as (p & Hp & Hs & Hnone).
  destruct (strip_decompose true (reverse (strip false s) "")) as (q & Hq & Hr & Hend).
  assert (strip false s = (trim s ++ reverse q "")%string) as Hy.
  { rewrite <- (reverse_involutive (strip false s)). rewrite Hr at 1.
    now rewrite reverse_append. }
  split; [|split].
  - exists p, (reverse q ""). split; [exact Hp|]. split.
    + apply (whites_reverse true _ Hq).
    + now rewrite <- Hy.
  - unfold starts_white. destruct (white_head false (trim s)) as [r|] eqn:E; [|reflexivity].
    apply (white_head_append _ _ _ (reverse q "")) in E.
    rewrite <- Hy, Hnone in E. discriminate.
  - unfold ends_white, trim, trimEnd, trimStart. rewrite reverse_involutive.
    now rewrite Hend.
Qed.

(** A string with no white space at either end is left as it is. *)
Lemma trim_fixed (s : string) :
  starts_white s = false -> ends_white s = false -> trim s = s.
Proof.
  unfold starts_white, ends_white, trim, trimEnd, trimStart. intros H1 H2.
  rewrite (strip_head false s).
  destruct (white_head false s); [discriminate|].
  rewrite (strip_head true (reverse s "")).
  destruct (white_head true (reverse s "")); [discriminate|].
  apply reverse_involutive.
Qed.

End WhiteSpace.

(* ------------------------------------------------------------------ *)
(** * The loop and the flags *)
(* ------------------------------------------------------------------ *)

Section BatchLemmas.
Context {engine : Engine}.

Lemma getDistance_world (s d : string) (w : World) :
  Adapter.getDistance s d w =
  (Adapter.getDistance_outcome s d (network w (List.length (requests w)) (Adapter.url s d)),
   {| network := network w; requests := (requests w ++ [Adapter.url s d])%list |}).
Proof. reflexivity. Qed.

Lemma outcomes_length (zips : list string) (dest : string) :
  forall w, List.length (outcomes zips dest w) = List.length zips.
Proof.
  induction zips as [|zip rest IH]; intros w; simpl; [reflexivity|].
  now rewrite IH.
Qed.

Lemma for_of_collected (zips : list string) (dest : string) :
  forall acc w,
    fst (Batch.for_of zips dest acc w) = (acc ++ collected zips (outcomes zips dest w))%list.
Proof.
  induction zips as [|zip rest IH]; intros acc w; simpl.
  - now rewrite app_nil_r.
  - rewrite IH. unfold collected. simpl. now rewrite <- app_assoc.
Qed.

Lemma for_of_requests (zips : list string) (dest : string) :
  forall acc w,
    requests (snd (Batch.for_of zips dest acc w)) =
    (requests w ++ map (fun zip => Adapter.url (trim zip) (trim dest)) zips)%list.
Proof.
  induction zips as [|zip rest IH]; intros acc w; simpl.
  - now rewrite app_nil_r.
  - rewrite IH. simpl. now rewrite <- app_assoc.
Qed.

Lemma computeBatch_collected (zips : list string) (dest : string) (w : World) :
  fst (Batch.computeBatch zips dest w) =
  Batch.finalResults (collected zips (outcomes zips dest w)).
Proof.
  unfold Batch.computeBatch.
  pose proof (for_of_collected zips dest [] w) as H.
  destruct (Batch.for_of zips dest [] w) as [entries w']. simpl in *. now subst.
Qed.

Lemma computeBatch_requests (zips : list string) (dest : string) (w : World) :
  requests (snd (Batch.computeBatch zips dest w)) =
  (requests w ++ map (fun zip => Adapter.url (trim zip) (trim dest)) zips)%list.
Proof.
  unfold Batch.computeBatch.
  pose proof (for_of_requests zips dest [] w) as H.
  destruct (Batch.for_of zips dest [] w) as [entries w']. exact H.
Qed.

Lemma collected_sources (zips : list string) :
  forall outs, List.length outs = List.length zips ->
               map Batch.source (collected zips outs) = zips.
Proof.
  unfold collected.
  induction zips as [|zip rest IH]; intros [|o outs] H; simpl in *; try discriminate;
    [reflexivity|].
  f_equal; [now destruct o | apply IH; lia].
Qed.

Lemma collected_pushed (zips : list string) (outs : list (result Adapter.DistanceQueryResult))
      (r : Batch.Entry) :
  In r (collected zips outs) -> exists zip o, In o outs /\ r = Batch.push zip o.
Proof.
  unfold collected. intros H. apply in_map_iff in H as ([zip o] & <- & H).
  exists zip, o. split; [eapply in_combine_r; eassumption | reflexivity].
Qed.

Lemma finalResults_entries (l : list Batch.Entry) :
  map Batch.entry (Batch.finalResults l) = l.
Proof. unfold Batch.finalResults. rewrite map_map. simpl. apply map_id. Qed.

Lemma finalResults_in (l : list Batch.Entry) (r : Batch.OutcomeRecord) :
  In r (Batch.finalResults l) ->
  In (Batch.entry r) l /\
  Batch.isMin r = falsy (Batch.error (Batch.entry r))
                  && Batch.equals (Batch.distanceKm (Batch.entry r)) (Batch.minDistance l).
Proof.
  unfold Batch.finalResults. intros H. apply in_map_iff in H as (e & <- & H). now split.
Qed.

Lemma finalResults_nth (l : list Batch.Entry) (i : nat) (r : Batch.OutcomeRecord) :
  nth_error (Batch.finalResults l) i = Some r ->
  nth_error l i = Some (Batch.entry r) /\
  Batch.isMin r = falsy (Batch.error (Batch.entry r))
                  && Batch.equals (Batch.distanceKm (Batch.entry r)) (Batch.minDistance l).
Proof.
  unfold Batch.finalResults. rewrite nth_error_map.
  destruct (nth_error l i) as [e|]; simpl; [|discriminate].
  intros [= <-]. now split.
Qed.

(** A record with a result comes from a call that succeeded. *)
Lemma push_has_result (zip : string) (o : result Adapter.DistanceQueryResult) :
  has_result (Batch.push zip o) = true ->
  exists res, o = Return res /\ Batch.error (Batch.push zip o) = None
              /\ Batch.distanceKm (Batch.push zip o) = Some (Adapter.distanceKm res).
Proof. destruct o as [err|res]; simpl; [discriminate|]. intros _. now exists res. Qed.

Lemma push_distance (zip : string) (o : result Adapter.DistanceQueryResult) (d : number) :
  Batch.distanceKm (Batch.push zip o) = Some d -> has_result (Batch.push zip o) = true.
Proof. destruct o as [err|res]; simpl; [discriminate | reflexivity]. Qed.

Lemma push_one_of (zip : string) (o : result Adapter.DistanceQueryResult) :
  xorb (has_result (Batch.push zip o)) (has_error (Batch.push zip o)) = true.
Proof. now destruct o. Qed.

End BatchLemmas.

(* ------------------------------------------------------------------ *)
(** * Properties of the batch *)
(* ------------------------------------------------------------------ *)

Section BatchProperties.
Context {engine : Engine}.

Lemma outcomes_nth (zips : list string) (dest : string) :
  forall w i zip,
    nth_error zips i = Some zip ->
    exists res, nth_error (outcomes zips dest w) i
                = Some (Adapter.getDistance_outcome (trim zip) (trim dest) res).
Proof.
  induction zips as [|z rest IH]; intros w [|i] zip H; simpl in *; try discriminate.
  - injection H as ->. eexists. reflexivity.
  - eapply IH. exact H.
Qed.

Lemma collected_nth (zips : list string) :
  forall outs i zip o,
    nth_error zips i = Some zip -> nth_error outs i = Some o ->
    nth_error (collected zips outs) i = Some (Batch.push zip o).
Proof.
  unfold collected.
  induction zips as [|z rest IH]; intros [|o' outs] [|i] zip o Hz Ho; simpl in *;
    try discriminate.
  - now injection Hz as ->; injection Ho as ->.
  - now apply IH.
Qed.

Lemma batch_nth (zips : list string) (dest : string) (w : World) (i : nat) (zip : string) :
  nth_error zips i = Some zip ->
  exists o r,
    nth_error (outcomes zips dest w) i = Some o /\
    nth_error (fst (Batch.computeBatch zips dest w)) i = Some r /\
    Batch.entry r = Batch.push zip o.
Proof.
  intros Hz. destruct (outcomes_nth zips dest w i zip Hz) as (res & Ho).
  rewrite computeBatch_collected.
  pose proof (collected_nth zips _ i zip _ Hz Ho) as Hc.
  unfold Batch.finalResults. rewrite nth_error_map, Hc. simpl.
  eexists _, _. repeat split. exact Ho.
Qed.

Lemma batch_sources (zips : list string) (dest : string) (w : World) :
  map (fun r => Batch.source (Batch.entry r)) (fst (Batch.computeBatch zips dest w)) = zips.
Proof.
  rewrite computeBatch_collected, <- (map_map Batch.entry Batch.source).
  rewrite finalResults_entries. apply collected_sources, outcomes_length.
Qed.

Lemma batch_pushed (zips : list string) (dest : string) (w : World) (r : Batch.OutcomeRecord) :
  In r (fst (Batch.computeBatch zips dest w)) ->
  exists zip o, In o (outcomes zips dest w) /\ Batch.entry r = Batch.push zip o.
Proof.
  rewrite computeBatch_collected. intros H.
  apply finalResults_in in H as [H _]. now apply collected_pushed in H.
Qed.

Lemma valid_distance (l : list Batch.Entry) (e : Batch.Entry) :
  In e l -> falsy (Batch.error e) = true ->
  In (Batch.distanceKm e) (Batch.validDistances l).
Proof.
  intros H F. unfold Batch.validDistances. apply in_map, filter_In. now split.
Qed.

(** C9. In every batch, each record holds either a result or an error,
    never both and never neither; and a record is flagged only when
    it holds a result whose [distanceKm] is below or equal to that of
    every record of the batch that holds a result. *)
Theorem record_invariant (zips : list string) (dest : string) (w : World)
        (r : Batch.OutcomeRecord) :
  In r (fst (Batch.computeBatch zips dest w)) ->
  xorb (has_result (Batch.entry r)) (has_error (Batch.entry r)) = true /\
  (Batch.isMin r = true ->
   exists d,
     Batch.distanceKm (Batch.entry r) = Some d /\
     has_result (Batch.entry r) = true /\
     has_error (Batch.entry r) = false /\
     forall r' d',
       In r' (fst (Batch.computeBatch zips dest w)) ->
       has_result (Batch.entry r') = true ->
       Batch.distanceKm (Batch.entry r') = Some d' ->
       le d d' = true).
Proof.
  intros Hin. destruct (batch_pushed _ _ _ _ Hin) as (zip & o & _ & Hr).
  split; [rewrite Hr; apply push_one_of|].
  intros Hmin. rewrite computeBatch_collected in *.
  set (l := collected zips (outcomes zips dest w)) in *.
  apply finalResults_in in Hin as [_ Hflag]. rewrite Hmin in Hflag.
  symmetry in Hflag. apply andb_prop in Hflag as [_ Heq].
  destruct (Batch.distanceKm (Batch.entry r)) as [d|] eqn:Hd; [|discriminate].
  simpl in Heq. exists d.
  assert (Hres : has_result (Batch.entry r) = true)
    by (rewrite Hr in *; eapply push_distance; eassumption).
  repeat split; auto.
  - rewrite Hr in *. destruct (push_has_result _ _ Hres) as (res & _ & He & _).
    unfold has_error. now rewrite He.
  - intros r' d' Hin' Hres' Hd'.
    apply finalResults_in in Hin' as [Hin' _].
    destruct (collected_pushed _ _ _ Hin') as (zip' & o' & _ & Hr').
    rewrite Hr' in Hres'. destruct (push_has_result _ _ Hres') as (res' & _ & He' & _).
    rewrite <- Hr' in He'.
    assert (Hv : In (Some d') (Batch.validDistances l)).
    { rewrite <- Hd'. apply valid_distance; [assumption | now rewrite He']. }
    destruct (eq_not_nan _ _ Heq) as [_ Hm].
    pose proof (Math_min_spec _ Hm) as Hall. rewrite Forall_forall in Hall.
    destruct (Hall _ Hv) as (x & [= <-] & _ & Hle).
    eapply le_trans; [apply eq_le, Heq | exact Hle].
Qed.

(** C2. When the four calls fail, the batch is made of four records,
    one per source and in their order, each holding the message of its
    failure and no result, none of them flagged. *)
Theorem all_failed (z1 z2 z3 z4 dest : string) (w : World) (e1 e2 e3 e4 : Exn) :
  outcomes [z1; z2; z3; z4] dest w = [Throw e1; Throw e2; Throw e3; Throw e4] ->
  let failed zip err :=
    {| Batch.entry := {| Batch.source := zip;
                         Batch.distanceKm := None;
                         Batch.distanceMiles := None;
                         Batch.durationMins := None;
                         Batch.error := Some (message err) |};
       Batch.isMin := false |} in
  fst (Batch.computeBatch [z1; z2; z3; z4] dest w)
  = [failed z1 e1; failed z2 e2; failed z3 e3; failed z4 e4].
Proof.
  intros H failed. rewrite computeBatch_collected, H.
  unfold collected, Batch.finalResults, failed. simpl.
  now rewrite !andb_false_r.
Qed.

(** C7. Whatever the calls do, the batch has one record per source, in
    the order of the sources; the record at a position is the one
    pushed for the source and the outcome at that position, so a
    failure leaves the records of the later positions in place, and
    one request is sent per source. [handleSubmit] publishes this
    batch for its four sources. *)
Theorem one_record_per_source (zips : list string) (dest : string) (w : World) :
  let batch := fst (Batch.computeBatch zips dest w) in
  List.length batch = List.length zips /\
  map (fun r => Batch.source (Batch.entry r)) batch = zips /\
  List.length (outcomes zips dest w) = List.length zips /\
  (forall i zip, nth_error zips i = Some zip ->
     exists o r, nth_error (outcomes zips dest w) i = Some o /\
                 nth_error batch i = Some r /\
                 Batch.entry r = Batch.push zip o) /\
  (forall st : App.State,
     let st' := fst (App.handleSubmit st w) in
     List.length (App.results st') = 4%nat /\
     map (fun r => Batch.source (Batch.entry r)) (App.results st')
     = [App.sourceZip1 st; App.sourceZip2 st; App.sourceZip3 st; App.sourceZip4 st]).
Proof.
  intros batch.
  assert (Hsrc : forall zs d, map (fun r => Batch.source (Batch.entry r))
                                  (fst (Batch.computeBatch zs d w)) = zs)
    by (intros; apply batch_sources).
  assert (Hlen : forall zs d, List.length (fst (Batch.computeBatch zs d w)) = List.length zs).
  { intros zs d. rewrite <- (Hsrc zs d) at 2. now rewrite length_map. }
  split; [|split; [|split; [|split; [|split]]]].
  - apply Hlen.
  - apply Hsrc.
  - apply outcomes_length.
  - intros i zip Hz. now apply batch_nth.
  - unfold App.handleSubmit.
    pose proof (Hlen (App.sourceZips st) (App.destZip st)) as H.
    destruct (Batch.computeBatch (App.sourceZips st) (App.destZip st) w). exact H.
  - unfold App.handleSubmit.
    pose proof (Hsrc (App.sourceZips st) (App.destZip st)) as H.
    destruct (Batch.computeBatch (App.sourceZips st) (App.destZip st) w). exact H.
Qed.

Lemma collected_same (zips : list string) :
  forall outs outs',
    Forall2 same_outcome outs outs' -> collected zips outs = collected zips outs'.
Proof.
  unfold collected.
  induction zips as [|zip rest IH]; intros outs outs' H; [reflexivity|].
  destruct H as [|o o' outs outs' Ho H]; [reflexivity|]. simpl. f_equal.
  - destruct o, o'; simpl in *; try contradiction.
    + unfold Batch.failure. now rewrite Ho.
    + now subst.
  - now apply IH.
Qed.

(** C10. Two runs of a batch on the same sources and destination in
    which the calls yield, position by position, the same result or a
    failure with the same message return the same records, flags
    included. *)
Theorem computeBatch_deterministic (zips : list string) (dest : string) (w1 w2 : World) :
  Forall2 same_outcome (outcomes zips dest w1) (outcomes zips dest w2) ->
  fst (Batch.computeBatch zips dest w1) = fst (Batch.computeBatch zips dest w2).
Proof.
  intros H. rewrite !computeBatch_collected. f_equal. now apply collected_same.
Qed.

End BatchProperties.

(* ------------------------------------------------------------------ *)
(** * The nearest source *)
(* ------------------------------------------------------------------ *)

Section Nearest.
Context {engine : Engine}.

(** Among distances no two of which are equal, the one that equals a
    given value is alone in doing so. *)
Lemma equal_once (ds : list number) (m : number) :
  distinct ds ->
  Exists (fun d => strict_eq d m = true) ds ->
  exists k dk,
    nth_error ds k = Some dk /\ strict_eq dk m = true /\
    forall i d, nth_error ds i = Some d -> strict_eq d m = Nat.eqb i k.
Proof.
  unfold distinct. induction 1 as [|a l Ha Hl IH]; intros Hex; [inversion Hex|].
  assert (Hclash : forall d, In d l -> strict_eq a m = true -> strict_eq d m = true -> False).
  { intros d Hd HA Hd'. rewrite Forall_forall in Ha. specialize (Ha d Hd).
    rewrite (eq_trans a m d HA (eq_sym _ _ Hd')) in Ha. discriminate. }
  destruct (strict_eq a m) eqn:Ea.
  - exists 0%nat, a. repeat split; auto.
    intros [|i] d Hi; simpl in *.
    + now injection Hi as <-.
    + apply nth_error_In in Hi. destruct (strict_eq d m) eqn:Ed; [|reflexivity].
      exfalso. eapply Hclash; eauto.
  - inversion Hex as [? ? Hhd | ? ? Htl]; subst; [congruence|].
    destruct (IH Htl) as (k & dk & Hk & Hdk & Huniq).
    exists (S k), dk. repeat split; auto.
    intros [|i] d Hi; simpl in *.
    + now injection Hi as <-.
    + now apply Huniq.
Qed.

(** [Math.min] of Numbers that are not [NaN], at least one of them:
    one of the arguments equals it, and it is below all of them. *)
Lemma Math_min_attained (ds : list number) :
  ds <> [] -> Forall not_nan ds ->
  Exists (fun d => strict_eq d (Math_min (map Some ds)) = true) ds /\
  Forall (fun d => le (Math_min (map Some ds)) d = true) ds.
Proof.
  intros Hne Hall. unfold Math_min. rewrite map_map. simpl. rewrite map_id.
  destruct (min_loop_spec ds Infinity eq_refl Hall) as (Nm & _ & F & D).
  split; [|exact F].
  destruct D as [D | D].
  - destruct ds as [|d0 ds]; [contradiction|]. constructor.
    inversion F; subst. inversion Hall; subst.
    apply le_antisym; [|assumption].
    eapply le_trans; [now apply le_Infinity | apply eq_le, eq_sym, D].
  - rewrite Exists_exists in *. destruct D as (x & Hx & E).
    exists x. split; [assumption | now apply eq_sym].
Qed.

(** C1, amended. When the four calls succeed with distances no two of
    which are equal and none of which is [NaN], the batch holds the
    four results in order and exactly one of its records is flagged:
    there is a position [k] whose record is flagged, no record at
    another position is, and the distance of the record at [k] is
    strictly below the distance of every other record. *)
Theorem unique_minimum (z1 z2 z3 z4 dest : string) (w : World)
        (r1 r2 r3 r4 : Adapter.DistanceQueryResult) :
  outcomes [z1; z2; z3; z4] dest w = [Return r1; Return r2; Return r3; Return r4] ->
  let ds := map Adapter.distanceKm [r1; r2; r3; r4] in
  Forall not_nan ds ->
  distinct ds ->
  let batch := fst (Batch.computeBatch [z1; z2; z3; z4] dest w) in
  map Batch.entry batch
  = [Batch.success z1 r1; Batch.success z2 r2; Batch.success z3 r3; Batch.success z4 r4] /\
  List.length (filter Batch.isMin batch) = 1%nat /\
  exists k rk dk,
    nth_error batch k = Some rk /\
    Batch.isMin rk = true /\
    Batch.distanceKm (Batch.entry rk) = Some dk /\
    (forall i r, nth_error batch i = Some r -> Batch.isMin r = Nat.eqb i k) /\
    (forall i r d, nth_error batch i = Some r -> i <> k ->
                   Batch.distanceKm (Batch.entry r) = Some d -> lt dk d = true).
Proof.
  intros H ds Hnan Hdist batch.
  destruct (Math_min_attained ds ltac:(discriminate) Hnan) as [Hex Hle].
  destruct (equal_once ds _ Hdist Hex) as (k & dk & Hk & Hdk & Huniq).
  assert (Hentries : map Batch.entry batch
                     = [Batch.success z1 r1; Batch.success z2 r2;
                        Batch.success z3 r3; Batch.success z4 r4]).
  { unfold batch. now rewrite computeBatch_collected, finalResults_entries, H. }
  assert (Hflag : forall i r, nth_error batch i = Some r ->
                              exists d, nth_error ds i = Some d /\
                                        Batch.distanceKm (Batch.entry r) = Some d /\
                                        Batch.isMin r = Nat.eqb i k).
  { intros i r Hi. unfold batch in Hi. rewrite computeBatch_collected, H in Hi.
    apply finalResults_nth in Hi as [Hi ->].
    unfold collected, Batch.minDistance, Batch.validDistances in *. simpl in *.
    fold ds.
    destruct i as [|[|[|[|i]]]]; simpl in Hi; try (now destruct i);
      injection Hi as <-; simpl; eexists; (split; [reflexivity|]);
      (split; [reflexivity|]).
    + apply (Huniq 0%nat). reflexivity.
    + apply (Huniq 1%nat). reflexivity.
    + apply (Huniq 2%nat). reflexivity.
    + apply (Huniq 3%nat). reflexivity. }
  assert (Hstrict : forall i d, nth_error ds i = Some d -> i <> k -> lt dk d = true).
  { intros i d Hi Hne. apply le_neq_lt.
    - rewrite Forall_forall in Hle.
      eapply le_trans; [apply eq_le, Hdk | apply Hle; eapply nth_error_In, Hi].
    - destruct (strict_eq dk d) eqn:E; [|reflexivity].
      pose proof (Huniq i d Hi) as F. apply Nat.eqb_neq in Hne. rewrite Hne in F.
      rewrite (eq_trans d dk _ (eq_sym _ _ E) Hdk) in F. discriminate. }
  clearbody batch.
  destruct batch as [|a [|b [|c [|d [|x rest]]]]]; try discriminate Hentries.
  split; [exact Hentries|].
  assert (Ha := Hflag 0%nat a eq_refl). assert (Hb := Hflag 1%nat b eq_refl).
  assert (Hc := Hflag 2%nat c eq_refl). assert (Hd := Hflag 3%nat d eq_refl).
  destruct Ha as (da & _ & Hda & Fa), Hb as (db & _ & Hdb & Fb),
           Hc as (dc & _ & Hdc & Fc), Hd as (dd & _ & Hdd & Fd).
  split.
  - simpl. rewrite Fa, Fb, Fc, Fd.
    destruct k as [|[|[|[|k]]]]; try reflexivity. simpl in Hk. now destruct k.
  - assert (Hlast : forall i r d', nth_error [a; b; c; d] i = Some r -> i <> k ->
                                   Batch.distanceKm (Batch.entry r) = Some d' ->
                                   lt dk d' = true).
    { intros i r d' Hi Hne Hd'. destruct (Hflag i r Hi) as (x & Hx & Hrx & _).
      rewrite Hrx in Hd'. injection Hd' as <-. now apply (Hstrict i). }
    assert (Hmin : forall i r, nth_error [a; b; c; d] i = Some r ->
                               Batch.isMin r = Nat.eqb i k).
    { intros i r Hi. now destruct (Hflag i r Hi) as (_ & _ & _ & F). }
    assert (Hdk' : forall r, nth_error [a; b; c; d] k = Some r ->
                             Batch.distanceKm (Batch.entry r) = Some dk).
    { intros r Hr. destruct (Hflag k r Hr) as (x & Hx & Hrx & _). congruence. }
    destruct k as [|[|[|[|k]]]].
    + exists 0%nat, a, dk. repeat split; auto.
    + exists 1%nat, b, dk. repeat split; auto.
    + exists 2%nat, c, dk. repeat split; auto.
    + exists 3%nat, d, dk. repeat split; auto.
    + simpl in Hk. now destruct k.
Qed.

(** C3, amended. When no failure of the batch carries an empty
    message and no result of the batch has a distance that is [NaN],
    every record with a result than which no record of the batch has
    a smaller distance is flagged, however many such records there
    are, and not only the first. *)
Theorem ties_flagged (zips : list string) (dest : string) (w : World)
      (r : Batch.OutcomeRecord) (d : number) :
  (forall err, In (Throw err) (outcomes zips dest w) -> message err <> "") ->
  (forall res, In (Return res) (outcomes zips dest w) ->
               not_nan (Adapter.distanceKm res)) ->
  In r (fst (Batch.computeBatch zips dest w)) ->
  Batch.distanceKm (Batch.entry r) = Some d ->
  (forall r' d', In r' (fst (Batch.computeBatch zips dest w)) ->
                 Batch.distanceKm (Batch.entry r') = Some d' -> lt d' d = false) ->
  Batch.isMin r = true.
Proof.
  intros Hmsg Hnan Hin Hd Hleast.
  assert (Hnum : forall e x, In e (collected zips (outcomes zips dest w)) ->
                             Batch.distanceKm e = Some x -> not_nan x).
  { intros e x He Hx. destruct (collected_pushed _ _ _ He) as (zip & [err|res] & Ho & ->);
      simpl in Hx; [discriminate|]. injection Hx as <-. now apply Hnan. }
  assert (Hd' : not_nan d).
  { rewrite computeBatch_collected in Hin. apply finalResults_in in Hin as [Hin _].
    now apply (Hnum _ _ Hin). }
  assert (Hvalid : forall e, In e (collected zips (outcomes zips dest w)) ->
                             falsy (Batch.error e) = true ->
                             exists x, Batch.distanceKm e = Some x /\ le d x = true).
  { intros e He Hf.
    destruct (collected_pushed _ _ _ He) as (zip & [err|res] & Ho & E).
    - rewrite E in Hf. simpl in Hf. apply String.eqb_eq in Hf. now apply Hmsg in Ho.
    - exists (Adapter.distanceKm res). split; [now rewrite E|].
      assert (Hr' : In {| Batch.entry := e;
                          Batch.isMin := falsy (Batch.error e)
                                         && Batch.equals (Batch.distanceKm e)
                                              (Batch.minDistance (collected zips (outcomes zips dest w))) |}
                      (fst (Batch.computeBatch zips dest w))).
      { rewrite computeBatch_collected. unfold Batch.finalResults.
        apply in_map_iff. eexists. split; [reflexivity | exact He]. }
      apply le_total; [now apply Hnan | exact Hd' |].
      apply (Hleast _ _ Hr'). simpl. now rewrite E. }
  rewrite computeBatch_collected in Hin.
  apply finalResults_in in Hin as [Hin ->].
  destruct (collected_pushed _ _ _ Hin) as (zip & [err|res] & Ho & Hr);
    rewrite Hr in *; simpl in Hd; [discriminate|].
  injection Hd as <-. simpl.
  apply Math_min_least.
  - change (Some (Adapter.distanceKm res))
      with (Batch.distanceKm (Batch.push zip (Return res))).
    apply valid_distance; [assumption | reflexivity].
  - unfold Batch.validDistances. rewrite Forall_map, Forall_forall.
    intros e He. apply filter_In in He as [He Hf]. now apply Hvalid.
Qed.

End Nearest.

(* ------------------------------------------------------------------ *)
(** * Properties of [getDistance] *)
(* ------------------------------------------------------------------ *)

Section Rounding.

(** The integer chosen by [toFixed] is within half a unit of
    [10^f * x]. *)
Lemma nearest_close (m : positive) (e f : Z) :
  (Qabs (inject_Z (10 ^ f) * to_Q (S754_finite false m e) - inject_Z (nearest m e f))
   <= 1 # 2)%Q.
Proof.
  assert (Hexact : forall a b : Z,
             (Qabs (inject_Z a * inject_Z b - inject_Z (a * b)) <= 1 # 2)%Q).
  { intros a b. unfold Qle, Qabs, Qminus, Qplus, Qmult, Qopp, inject_Z. simpl. lia. }
  destruct e as [|p|k]; simpl to_Q; unfold nearest; try apply Hexact.
  set (A := 10 ^ f * Z.pos m).
  set (P := 2 ^ Z.pos k).
  assert (HP : 0 < P) by (apply Z.pow_pos_nonneg; lia).
  assert (E : 2 ^ (Z.pos k + 1) = 2 * P) by (unfold P; rewrite Z.pow_add_r; lia).
  rewrite E. replace (2 * 10 ^ f * Z.pos m) with (2 * A) by (unfold A; ring).
  pose proof (Z.div_mod (2 * A + P) (2 * P) ltac:(lia)) as Hdm.
  pose proof (Z.mod_pos_bound (2 * A + P) (2 * P) ltac:(lia)) as Hb.
  set (n := (2 * A + P) / (2 * P)) in *.
  unfold Qle, Qabs, Qminus, Qplus, Qmult, Qopp, inject_Z. simpl.
  rewrite Pos.mul_1_r, Pos2Z.inj_pow. fold P. fold A.
  lia.
Qed.

End Rounding.

Section AdapterProperties.
Context {engine : Engine}.

Lemma bind_Return {A B : Type} (c : result A) (k : A -> result B) (b : B) :
  bind c k = Return b -> exists a, c = Return a /\ k a = Return b.
Proof. destruct c as [err|a]; simpl; [discriminate|]. intros H. now exists a. Qed.

Lemma bind_Throw {A B : Type} (c : result A) (k : A -> result B) (err : Exn) :
  bind c k = Throw err ->
  c = Throw err \/ exists a, c = Return a /\ k a = Throw err.
Proof.
  destruct c as [err'|a]; simpl; intros H.
  - injection H as ->. now left.
  - right. now exists a.
Qed.

(** Reading a property raises nothing but a [TypeError]. *)
Lemma Get_Throw (v : jsval) (key : string) (err : Exn) :
  Get v key = Throw err -> exists msg, err = TypeError msg.
Proof. destruct v; simpl; intros [= <-]; eauto. Qed.

Lemma Get0_Throw (v : jsval) (err : Exn) :
  Get0 v = Throw err -> exists msg, err = TypeError msg.
Proof. destruct v; simpl; intros [= <-]; eauto. Qed.

Lemma first_element_Throw (data : jsval) (err : Exn) :
  Adapter.first_element data = Throw err -> exists msg, err = TypeError msg.
Proof.
  unfold Adapter.first_element. intros H.
  repeat match type of H with
         | bind _ _ = Throw _ => apply bind_Throw in H as [H | (? & _ & H)]
         end;
    eauto using Get_Throw, Get0_Throw.
Qed.

Lemma join_head (x : jsval) (err : Exn) :
  match x with
  | Undefined | Null => Return ""
  | _ => ToString x
  end = Throw err ->
  ToString x = Throw err.
Proof. destruct x; try discriminate; auto. Qed.

Lemma join_tail (join : list jsval -> result string) (a : string)
      (rest : list jsval) (err : Exn) :
  match rest with
  | [] => Return a
  | _ :: _ => b <- join rest ;; Return (a ++ "," ++ b)
  end = Throw err ->
  join rest = Throw err.
Proof.
  destruct rest; [discriminate|]. intros H.
  apply bind_Throw in H as [H | (b & _ & H)]; [exact H | discriminate].
Qed.

Lemma ToString_Throw :
  forall (v : jsval) (err : Exn), ToString v = Throw err -> err = TypeError cannot_convert.
Proof.
  fix ToString_Throw 1. intros [ | | [|] | x | s | items | props ] err; simpl;
    try discriminate.
  - revert items err. fix join_Throw 1. intros [|x rest] err; [discriminate|].
    intros H. apply bind_Throw in H as [H | (a & _ & H)].
    + apply join_head in H. exact (ToString_Throw x err H).
    + apply join_tail in H. exact (join_Throw rest err H).
  - destruct (own "toString" props); [|discriminate]. now intros [= <-].
Qed.

Lemma ToNumber_Throw (v : jsval) (err : Exn) :
  ToNumber v = Throw err -> exists msg, err = TypeError msg.
Proof.
  destruct v as [ | | [|] | x | s | items | props ]; try discriminate;
    intros H; apply bind_Throw in H as [H | (? & _ & H)]; try discriminate;
    apply ToString_Throw in H; eauto.
Qed.

Lemma no_route_Throw (data : jsval) (err : Exn) :
  Adapter.no_route data = Throw err -> exists msg, err = TypeError msg.
Proof.
  unfold Adapter.no_route. intros H.
  apply bind_Throw in H as [H | (status & _ & H)]; [eauto using Get_Throw|].
  destruct (not_OK status); [discriminate|].
  apply bind_Throw in H as [H | (el & _ & H)]; [eauto using first_element_Throw|].
  apply bind_Throw in H as [H | (st0 & _ & H)]; [eauto using Get_Throw | discriminate].
Qed.

Lemma no_route_true (data : jsval) :
  Adapter.no_route data = Return true <->
  exists status,
    Get data "status" = Return status /\
    (not_OK status = true \/
     exists el status0,
       Adapter.first_element data = Return el /\
       Get el "status" = Return status0 /\ not_OK status0 = true).
Proof.
  unfold Adapter.no_route. split.
  - intros H. apply bind_Return in H as (status & Hs & H). exists status. split; [exact Hs|].
    destruct (not_OK status); [now left | right].
    apply bind_Return in H as (el & Hel & H). apply bind_Return in H as (st0 & Hst & H).
    exists el, st0. repeat split; auto. now injection H.
  - intros (status & Hs & H). rewrite Hs. simpl.
    destruct (not_OK status) eqn:E; [reflexivity|].
    destruct H as [H | (el & st0 & Hel & Hst & H)]; [discriminate|].
    rewrite Hel. simpl. rewrite Hst. simpl. now rewrite H.
Qed.

(** After the check of line 8 has passed, the rest of [getDistance]
    returns a result or raises a [TypeError]. *)
Lemma after_check (s d : string) (data : jsval) :
  Adapter.no_route data = Return false ->
  (exists r, Adapter.getDistance_data s d data = Return r) \/
  (exists msg, Adapter.getDistance_data s d data = Throw (TypeError msg)).
Proof.
  intros H. unfold Adapter.getDistance_data. rewrite H. simpl.
  repeat match goal with
         | |- context [bind ?c _] =>
             let E := fresh "E" in
             destruct c as [err|?] eqn:E; simpl;
             [ right;
               first [ apply first_element_Throw in E
                     | apply Get_Throw in E
                     | apply ToNumber_Throw in E ];
               destruct E as (msg & ->); now exists msg | ]
         end.
  left. eexists. reflexivity.
Qed.

Lemma near_by_computation (x : number) (q : Q) (k : positive) :
  Qle_bool (Qabs (to_Q x - q)) (1 # 2 ^ k) = true -> near x q k.
Proof. apply Qle_bool_imp_le. Qed.

(** C4. A call that succeeds returns, for the Numbers [m] and [sec]
    that the distance value and the duration value of the first
    element convert to (themselves when they are Numbers):
    [m / 1000], [(m / 1000) * 0.621371] computed from the quotient
    that has not been rounded, and [sec / 60], each one rounded on
    its own to two decimal places; a body of the expected shape with
    Numbers as values makes the call succeed so. The divisors are
    1000 and 60 and the factor is the Number nearest to 0.621371. For
    12345 metres and 678 seconds the result is made of the Numbers
    nearest to 12.35, 7.67 and 11.30. For 1234 metres the miles are
    0.77, from 1.234 km, where the rounded 1.23 km would give 0.76.
    For 1005 metres the kilometres are 1, the quotient being the
    Number just under 1.005. Rounding a finite value below 10^21 to
    two places picks an integer number of hundredths within half a
    hundredth of it; from 10^21 on a value is a whole number and
    comes back as it is. *)
Theorem getDistance_result (s d : string) (data : jsval)
        (r : Adapter.DistanceQueryResult) :
  Adapter.getDistance_data s d data = Return r ->
  (exists el dist dur meters seconds m sec,
      Adapter.first_element data = Return el /\
      Get el "distance" = Return dist /\ Get dist "value" = Return meters /\
      ToNumber meters = Return m /\
      Get el "duration" = Return dur /\ Get dur "value" = Return seconds /\
      ToNumber seconds = Return sec /\
      r = {| Adapter.distanceKm := round2 (div m (of_Z 1000));
             Adapter.distanceMiles := round2 (mul (div m (of_Z 1000)) (decimal 621371 6));
             Adapter.durationMins := round2 (div sec (of_Z 60)) |}) /\
  (forall x, ToNumber (Num x) = Return x) /\
  (forall m sec elements rows,
      Adapter.getDistance_data s d (body_of (Str "OK") (element_with m sec) elements rows)
      = Return {| Adapter.distanceKm := round2 (div m (of_Z 1000));
                  Adapter.distanceMiles
                  := round2 (mul (div m (of_Z 1000)) (decimal 621371 6));
                  Adapter.durationMins := round2 (div sec (of_Z 60)) |}) /\
  ((to_Q (of_Z 1000) == 1000)%Q /\ (to_Q (of_Z 60) == 60)%Q /\
   decimal 621371 6 = S754_finite false 5596812408117665 (-53) /\
   near (decimal 621371 6) (621371 # 1000000) 54) /\
  (Adapter.getDistance_data s d (ok_response 12345 678)
   = Return {| Adapter.distanceKm := S754_finite false 6952431924753203 (-49);
               Adapter.distanceMiles := S754_finite false 8635652285482926 (-50);
               Adapter.durationMins := S754_finite false 6361334473660826 (-49) |} /\
   near (S754_finite false 6952431924753203 (-49)) (1235 # 100) 50 /\
   near (S754_finite false 8635652285482926 (-50)) (767 # 100) 51 /\
   near (S754_finite false 6361334473660826 (-49)) (1130 # 100) 50) /\
  (Adapter.getDistance_data s d (ok_response 1234 90)
   = Return {| Adapter.distanceKm := S754_finite false 5539427541665710 (-52);
               Adapter.distanceMiles := S754_finite false 6935543426150564 (-53);
               Adapter.durationMins := S754_finite false 6755399441055744 (-52) |} /\
   near (S754_finite false 5539427541665710 (-52)) (123 # 100) 53 /\
   near (S754_finite false 6935543426150564 (-53)) (77 # 100) 54 /\
   (to_Q (S754_finite false 6755399441055744 (-52)) == 15 # 10)%Q /\
   round2 (mul (S754_finite false 5539427541665710 (-52)) (decimal 621371 6))
   = S754_finite false 6845471433603154 (-53) /\
   near (S754_finite false 6845471433603154 (-53)) (76 # 100) 54) /\
  (Adapter.getDistance_data s d (ok_response 1005 59)
   = Return {| Adapter.distanceKm := S754_finite false 4503599627370496 (-52);
               Adapter.distanceMiles := S754_finite false 5584463537939415 (-53);
               Adapter.durationMins := S754_finite false 8827055269646172 (-53) |} /\
   (to_Q (S754_finite false 4503599627370496 (-52)) == 1)%Q /\
   near (S754_finite false 5584463537939415 (-53)) (62 # 100) 54 /\
   near (S754_finite false 8827055269646172 (-53)) (98 # 100) 54 /\
   div (of_Z 1005) (of_Z 1000) = S754_finite false 4526117625507348 (-52) /\
   (to_Q (S754_finite false 4526117625507348 (-52)) < 1005 # 1000)%Q) /\
  (forall sign m e,
      below_1e21 m e = true ->
      toFixed (S754_finite sign m e) 2 = FsDecimal sign (nearest m e 2) 2 /\
      (Qabs (inject_Z 100 * to_Q (S754_finite false m e) - inject_Z (nearest m e 2))
       <= 1 # 2)%Q) /\
  (forall sign m e,
      below_1e21 m e = false ->
      round2 (S754_finite sign m e) = S754_finite sign m e).
Proof.
  intros H. split; [|split; [|split; [|split; [|split; [|split; [|split; [|split]]]]]]].
  - unfold Adapter.getDistance_data in H.
    apply bind_Return in H as ([|] & _ & H); [discriminate|].
    apply bind_Return in H as (el & Hel & H).
    apply bind_Return in H as (dist & Hdist & H).
    apply bind_Return in H as (meters & Hmeters & H).
    apply bind_Return in H as (m & Hm & H).
    apply bind_Return in H as (dur & Hdur & H).
    apply bind_Return in H as (seconds & Hseconds & H).
    apply bind_Return in H as (sec & Hsec & H).
    injection H as <-.
    exists el, dist, dur, meters, seconds, m, sec. repeat split; assumption.
  - reflexivity.
  - reflexivity.
  - split; [|split; [|split]]; [reflexivity | reflexivity | vm_compute; reflexivity |].
    apply near_by_computation. vm_compute. reflexivity.
  - split; [vm_compute; reflexivity|].
    repeat split; apply near_by_computation; vm_compute; reflexivity.
  - split; [vm_compute; reflexivity|].
    split; [apply near_by_computation; vm_compute; reflexivity|].
    split; [apply near_by_computation; vm_compute; reflexivity|].
    split; [reflexivity|].
    split; [vm_compute; reflexivity|].
    apply near_by_computation; vm_compute; reflexivity.
  - split; [vm_compute; reflexivity|].
    split; [reflexivity|].
    split; [apply near_by_computation; vm_compute; reflexivity|].
    split; [apply near_by_computation; vm_compute; reflexivity|].
    split; [vm_compute; reflexivity|].
    reflexivity.
  - intros sign m e Hlow. split.
    + simpl. now rewrite Hlow.
    + apply (nearest_close m e 2).
  - intros sign m e Hhigh. unfold round2. simpl. now rewrite Hhigh.
Qed.

Lemma not_OK_false (v : jsval) : not_OK v = false <-> v = Str "OK".
Proof.
  destruct v; simpl; try (split; discriminate).
  rewrite negb_false_iff, String.eqb_eq. split; [now intros -> | now intros [= ->]].
Qed.

Lemma no_route_false (data : jsval) :
  Adapter.no_route data = Return false <->
  exists el,
    Get data "status" = Return (Str "OK") /\
    Adapter.first_element data = Return el /\
    Get el "status" = Return (Str "OK").
Proof.
  unfold Adapter.no_route. split.
  - intros H. apply bind_Return in H as (status & Hs & H).
    destruct (not_OK status) eqn:E; [discriminate|]. apply not_OK_false in E as ->.
    apply bind_Return in H as (el & Hel & H). apply bind_Return in H as (st0 & Hst & H).
    injection H as H. apply not_OK_false in H as ->. now exists el.
  - intros (el & Hs & Hel & Hst). rewrite Hs. simpl. rewrite Hel. simpl. now rewrite Hst.
Qed.

Lemma route_failure (s d : string) (data : jsval) :
  Adapter.getDistance_data s d data = Throw (RouteNotFound (no_route_message s d)) <->
  refused data.
Proof.
  unfold refused. rewrite <- no_route_true. split.
  - intros H. destruct (Adapter.no_route data) as [err|[|]] eqn:E.
    + unfold Adapter.getDistance_data in H. rewrite E in H. simpl in H.
      apply no_route_Throw in E as (msg & ->). discriminate.
    + reflexivity.
    + destruct (after_check s d data E) as [(r & Hr) | (msg & Hr)];
        rewrite Hr in H; discriminate.
  - intros H. unfold Adapter.getDistance_data. now rewrite H.
Qed.

Lemma call_succeeds (s d : string) (data : jsval) (r : Adapter.DistanceQueryResult) :
  Adapter.getDistance_data s d data = Return r <->
  exists m sec,
    usable data m sec /\
    r = {| Adapter.distanceKm := round2 (div m (of_Z 1000));
           Adapter.distanceMiles := round2 (mul (div m (of_Z 1000)) (decimal 621371 6));
           Adapter.durationMins := round2 (div sec (of_Z 60)) |}.
Proof.
  split.
  - intros H. unfold Adapter.getDistance_data in H.
    apply bind_Return in H as ([|] & Hno & H); [discriminate|].
    apply no_route_false in Hno as (el' & Hs & Hel' & Hst).
    apply bind_Return in H as (el & Hel & H).
    rewrite Hel in Hel'. injection Hel' as <-.
    apply bind_Return in H as (dist & Hdist & H).
    apply bind_Return in H as (meters & Hmeters & H).
    apply bind_Return in H as (m & Hm & H).
    apply bind_Return in H as (dur & Hdur & H).
    apply bind_Return in H as (seconds & Hseconds & H).
    apply bind_Return in H as (sec & Hsec & H).
    injection H as <-.
    exists m, sec. split; [|reflexivity].
    exists el, dist, dur, meters, seconds. repeat split; assumption.
  - intros (m & sec & (el & dist & dur & meters & seconds & Hs & Hel & Hst & Hdist
                       & Hmeters & Hm & Hdur & Hseconds & Hsec) & ->).
    unfold Adapter.getDistance_data, Adapter.no_route.
    rewrite Hs. simpl. rewrite Hel. simpl. rewrite Hst. simpl.
    rewrite Hdist. simpl. rewrite Hmeters. simpl. rewrite Hm. simpl.
    rewrite Hdur. simpl. rewrite Hseconds. simpl. rewrite Hsec. reflexivity.
Qed.

Lemma call_fails (s d : string) (data : jsval) (err : Exn) :
  Adapter.getDistance_data s d data = Throw err ->
  err = RouteNotFound (no_route_message s d) \/ exists msg, err = TypeError msg.
Proof.
  intros H. destruct (Adapter.no_route data) as [err'|[|]] eqn:E.
  - unfold Adapter.getDistance_data in H. rewrite E in H. simpl in H.
    injection H as ->. right. eapply no_route_Throw, E.
  - unfold Adapter.getDistance_data in H. rewrite E in H. simpl in H.
    injection H as <-. now left.
  - destruct (after_check s d data E) as [(r & Hr) | (msg & Hr)];
      rewrite Hr in H; [discriminate|]. injection H as <-. right. now exists msg.
Qed.

(** C5, amended. A parsed response makes [getDistance] fail with the
    message "No route found from {source} to {destination}" exactly
    when its top-level status can be read and is not "OK", or is "OK"
    while the status of the first element of the first row can be
    read and is not "OK". The call returns a result exactly when both
    statuses are "OK" and the element has a distance and a duration
    whose values can be read and convert to Numbers. In every other
    case, and in no other, the call raises a [TypeError]: so it does
    for the body [null], and when the rows, the first row's elements,
    the first element, the distance or the duration are missing. No
    call fails in another way. *)
Theorem route_not_found_iff (s d : string) (data : jsval) :
  (Adapter.getDistance_data s d data = Throw (RouteNotFound (no_route_message s d)) <->
   refused data) /\
  ((exists r, Adapter.getDistance_data s d data = Return r) <->
   exists m sec, usable data m sec) /\
  ((exists msg, Adapter.getDistance_data s d data = Throw (TypeError msg)) <->
   ~ refused data /\ ~ exists m sec, usable data m sec) /\
  (forall err,
      Adapter.getDistance_data s d data = Throw err ->
      err = RouteNotFound (no_route_message s d) \/ exists msg, err = TypeError msg) /\
  (Adapter.getDistance_data s d Null = Throw (TypeError (cannot_read Null "status")) /\
   Adapter.getDistance_data s d (Obj [("status", Str "OK")])
   = Throw (TypeError (cannot_read Undefined "0")) /\
   Adapter.getDistance_data s d (Obj [("status", Str "OK"); ("rows", Arr [])])
   = Throw (TypeError (cannot_read Undefined "elements")) /\
   Adapter.getDistance_data s d (Obj [("status", Str "OK"); ("rows", Arr [Obj []])])
   = Throw (TypeError (cannot_read Undefined "0")) /\
   Adapter.getDistance_data s d (response_of "OK" [])
   = Throw (TypeError (cannot_read Undefined "status")) /\
   Adapter.getDistance_data s d (response_of "OK" [Obj [("status", Str "OK")]])
   = Throw (TypeError (cannot_read Undefined "value")) /\
   (forall m,
       Adapter.getDistance_data s d
         (response_of "OK" [Obj [("status", Str "OK"); ("distance", Obj [("value", Num m)])]])
       = Throw (TypeError (cannot_read Undefined "value")))).
Proof.
  assert (Hsucc : (exists r, Adapter.getDistance_data s d data = Return r) <->
                  exists m sec, usable data m sec).
  { split.
    - intros (r & H). apply call_succeeds in H as (m & sec & H & _). now exists m, sec.
    - intros (m & sec & H). eexists. apply call_succeeds. exists m, sec. split; [exact H|].
      reflexivity. }
  split; [apply route_failure|]. split; [exact Hsucc|]. split; [|split].
  - split.
    + intros (msg & H). split.
      * intros R. apply (route_failure s d) in R. rewrite R in H. discriminate.
      * intros U. apply Hsucc in U as (r & U). rewrite U in H. discriminate.
    + intros [R U]. destruct (Adapter.getDistance_data s d data) as [err|r] eqn:E.
      * destruct (call_fails _ _ _ _ E) as [-> | (msg & ->)].
        -- apply route_failure in E. contradiction.
        -- now exists msg.
      * exfalso. apply U, Hsucc. now exists r.
  - apply call_fails.
  - repeat split.
Qed.

(** C6, amended. When [fetch] rejects, or when the body of the
    response cannot be parsed, [getDistance] fails with the error of
    that layer, message unchanged, which is not the route failure.
    The HTTP status plays no part: a response whose body parses is
    handled by its body alone, whatever its status. *)
Theorem transport_failures (s d : string) (w : World) :
  let res := network w (List.length (requests w)) (Adapter.url s d) in
  (forall msg, res = NetworkFailure msg ->
               fst (Adapter.getDistance s d w) = Throw (TransportError msg)) /\
  (forall status msg, res = Response status (Malformed msg) ->
                      fst (Adapter.getDistance s d w) = Throw (TransportError msg)) /\
  (forall status data, res = Response status (Json data) ->
                       fst (Adapter.getDistance s d w) = Adapter.getDistance_data s d data) /\
  (forall msg msg', message (TransportError msg) = msg /\
                    TransportError msg <> RouteNotFound msg').
Proof.
  intros res. rewrite getDistance_world. fold res. simpl.
  repeat split; try discriminate; intros; now rewrite H.
Qed.

End AdapterProperties.

(* ------------------------------------------------------------------ *)
(** * Concrete runs *)
(* ------------------------------------------------------------------ *)

Section Runs.

(** C1 as stated fails: the four calls succeed, no two distances are
    equal, and no record is flagged. The first answer has no distance
    value, so its distance is [NaN] and so is [Math.min]. *)
Lemma all_succeed_none_flagged :
  exists r1 r2 r3 r4,
    outcomes (engine := v8) sample_sources "60601" one_without_value
    = [Return r1; Return r2; Return r3; Return r4] /\
    distinct (map Adapter.distanceKm [r1; r2; r3; r4]) /\
    map Batch.isMin (run one_without_value) = [false; false; false; false].
Proof.
  eexists _, _, _, _. split; [reflexivity|].
  split; [repeat constructor | reflexivity].
Qed.

Lemma unique_minimum_witness :
  map Batch.isMin (run four_routes) = [false; true; false; false] /\
  List.length (filter Batch.isMin (run four_routes)) = 1%nat /\
  exists k rk dk,
    nth_error (run four_routes) k = Some rk /\
    Batch.isMin rk = true /\
    Batch.distanceKm (Batch.entry rk) = Some dk /\
    (forall i r, nth_error (run four_routes) i = Some r -> Batch.isMin r = Nat.eqb i k) /\
    (forall i r d, nth_error (run four_routes) i = Some r -> i <> k ->
                   Batch.distanceKm (Batch.entry r) = Some d -> lt dk d = true).
Proof.
  split; [reflexivity|].
  assert (W := unique_minimum (engine := v8) "95131" "32220" "07305" "75050" "60601"
                 four_routes
                 {| Adapter.distanceKm := of_Z 4; Adapter.distanceMiles := decimal 249 2;
                    Adapter.durationMins := of_Z 4 |}
                 {| Adapter.distanceKm := of_Z 1; Adapter.distanceMiles := decimal 62 2;
                    Adapter.durationMins := of_Z 1 |}
                 {| Adapter.distanceKm := of_Z 2; Adapter.distanceMiles := decimal 124 2;
                    Adapter.durationMins := of_Z 2 |}
                 {| Adapter.distanceKm := of_Z 3; Adapter.distanceMiles := decimal 186 2;
                    Adapter.durationMins := of_Z 3 |}).
  cbv zeta in W. apply W.
  - vm_compute. reflexivity.
  - repeat constructor.
  - repeat constructor.
Defined.

(** C3 as stated fails, in two ways. The first two sources tie at
    5 km, below the fourth at 7 km. When the third answer carries no
    values, its call succeeds with a distance that is [NaN]; when the
    third call fails with an error whose message is empty, its record
    passes the test [!r.error] of line 53 with a [distanceKm] that is
    [undefined]. Either way no record has a distance below 5 km,
    [Math.min] is [NaN] and neither of the tied records is flagged. *)
Lemma hidden_ties :
  (map (fun r => Batch.distanceKm (Batch.entry r)) (run tie_and_nan)
   = [Some (of_Z 5); Some (of_Z 5); Some NaN; Some (of_Z 7)] /\
   map (fun r => Batch.error (Batch.entry r)) (run tie_and_nan)
   = [None; None; None; None] /\
   map (fun x => lt x (of_Z 5)) [of_Z 5; of_Z 5; NaN; of_Z 7]
   = [false; false; false; false] /\
   Batch.minDistance (map Batch.entry (run tie_and_nan)) = NaN /\
   map Batch.isMin (run tie_and_nan) = [false; false; false; false]) /\
  (map (fun r => Batch.distanceKm (Batch.entry r)) (run tie_and_silent_failure)
   = [Some (of_Z 5); Some (of_Z 5); None; Some (of_Z 7)] /\
   map (fun r => Batch.error (Batch.entry r)) (run tie_and_silent_failure)
   = [None; None; Some ""; None] /\
   le (of_Z 5) (of_Z 5) = true /\ le (of_Z 5) (of_Z 7) = true /\
   Batch.minDistance (map Batch.entry (run tie_and_silent_failure)) = NaN /\
   map Batch.isMin (run tie_and_silent_failure) = [false; false; false; false]).
Proof. vm_compute. repeat split. Qed.

Lemma ties_flagged_witness :
  Batch.isMin (nth 1 (run tie_and_failure)
                   {| Batch.entry := Batch.failure "" (TypeError ""); Batch.isMin := false |})
  = true.
Proof.
  apply (ties_flagged (engine := v8) sample_sources "60601" tie_and_failure _ (of_Z 5)).
  - intros err H. vm_compute in H.
    destruct H as [H | [H | [H | [H | []]]]]; try discriminate.
    injection H as <-. discriminate.
  - intros res H. vm_compute in H.
    destruct H as [H | [H | [H | [H | []]]]]; try discriminate;
      injection H as <-; reflexivity.
  - vm_compute. tauto.
  - vm_compute. reflexivity.
  - intros r' d' H Hd. vm_compute in H.
    destruct H as [<- | [<- | [<- | [<- | []]]]]; simpl in Hd;
      try discriminate; injection Hd as <-; reflexivity.
Defined.

(** The same batch with a failure that has a message: both tied
    records are flagged. *)
Lemma tie_flagged :
  map Batch.isMin (run tie_and_failure) = [true; true; false; false].
Proof. vm_compute. reflexivity. Qed.

Lemma all_failed_witness :
  run four_failures
  = map (fun p => {| Batch.entry := {| Batch.source := fst p;
                                       Batch.distanceKm := None;
                                       Batch.distanceMiles := None;
                                       Batch.durationMins := None;
                                       Batch.error := Some (snd p) |};
                     Batch.isMin := false |})
        [("95131", "Failed to fetch");
         ("32220", "Unexpected token '<'");
         ("07305", "No route found from 07305 to 60601");
         ("75050", "Cannot read properties of undefined (reading 'value')")].
Proof.
  apply (all_failed (engine := v8) "95131" "32220" "07305" "75050" "60601" four_failures
                    (TransportError "Failed to fetch")
                    (TransportError "Unexpected token '<'")
                    (RouteNotFound "No route found from 07305 to 60601")
                    (TypeError "Cannot read properties of undefined (reading 'value')")).
  vm_compute. reflexivity.
Defined.

Lemma record_invariant_witness :
  let r := {| Batch.entry := {| Batch.source := "32220";
                                Batch.distanceKm := Some (of_Z 1);
                                Batch.distanceMiles := Some (decimal 62 2);
                                Batch.durationMins := Some (of_Z 1);
                                Batch.error := None |};
              Batch.isMin := true |} in
  In r (run four_routes) /\
  xorb (has_result (Batch.entry r)) (has_error (Batch.entry r)) = true /\
  forall r' d', In r' (run four_routes) ->
                has_result (Batch.entry r') = true ->
                Batch.distanceKm (Batch.entry r') = Some d' ->
                le (of_Z 1) d' = true.
Proof.
  intros r.
  assert (Hin : In r (run four_routes)) by (vm_compute; auto).
  destruct (record_invariant (engine := v8) sample_sources "60601" four_routes r Hin)
    as [Hone Hmin].
  repeat split; auto.
  destruct (Hmin eq_refl) as (d & Hd & _ & _ & Hleast).
  injection Hd as <-. exact Hleast.
Defined.

Lemma computeBatch_deterministic_witness :
  run three_routes = run three_routes_again.
Proof.
  apply (computeBatch_deterministic (engine := v8)).
  vm_compute. repeat constructor.
Defined.

(** Codes typed with spaces around them: the requests carry the trimmed
    codes, the records the codes as typed. *)
Example spaces_around_codes :
  let (batch, w) :=
    Batch.computeBatch (engine := v8) [" 95131"; "32220 "; "07305"; "75050"] " 60601 "
                       four_routes in
  requests w
  = ["https://distancefindapi.onrender.com/api/distance?origins=95131&destinations=60601";
     "https://distancefindapi.onrender.com/api/distance?origins=32220&destinations=60601";
     "https://distancefindapi.onrender.com/api/distance?origins=07305&destinations=60601";
     "https://distancefindapi.onrender.com/api/distance?origins=75050&destinations=60601"] /\
  map (fun r => Batch.source (Batch.entry r)) batch = [" 95131"; "32220 "; "07305"; "75050"] /\
  map Batch.isMin batch = [false; true; false; false].
Proof. vm_compute. repeat split. Qed.

Lemma getDistance_result_witness :
  exists m sec,
    ToNumber (engine := v8) (Num (of_Z 12345)) = Return m /\
    ToNumber (engine := v8) (Num (of_Z 678)) = Return sec /\
    {| Adapter.distanceKm := S754_finite false 6952431924753203 (-49);
       Adapter.distanceMiles := S754_finite false 8635652285482926 (-50);
       Adapter.durationMins := S754_finite false 6361334473660826 (-49) |}
    = {| Adapter.distanceKm := round2 (div m (of_Z 1000));
         Adapter.distanceMiles := round2 (mul (div m (of_Z 1000)) (decimal 621371 6));
         Adapter.durationMins := round2 (div sec (of_Z 60)) |}.
Proof.
  destruct (getDistance_result (engine := v8) "95131" "60601" (ok_response 12345 678)
              {| Adapter.distanceKm := S754_finite false 6952431924753203 (-49);
                 Adapter.distanceMiles := S754_finite false 8635652285482926 (-50);
                 Adapter.durationMins := S754_finite false 6361334473660826 (-49) |})
    as [(el & dist & dur & meters & seconds & m & sec
         & Hel & Hdist & Hmeters & Hm & Hdur & Hseconds & Hsec & Hr) _].
  - vm_compute. reflexivity.
  - vm_compute in Hel. injection Hel as <-.
    vm_compute in Hdist. injection Hdist as <-.
    vm_compute in Hmeters. injection Hmeters as <-.
    vm_compute in Hdur. injection Hdur as <-.
    vm_compute in Hseconds. injection Hseconds as <-.
    exists m, sec. repeat split; assumption.
Defined.

(** C5 as stated fails: the top-level status and the status of the
    first element are both "OK", and the call neither returns a
    result nor fails with the route message: reading the value of a
    distance that is not there raises a [TypeError]. *)
Lemma both_OK_no_result :
  Get (engine := v8) bare_element "status" = Return (Str "OK") /\
  (exists el, Adapter.first_element (engine := v8) bare_element = Return el /\
              Get (engine := v8) el "status" = Return (Str "OK")) /\
  Adapter.getDistance_data (engine := v8) "95131" "60601" bare_element
  = Throw (TypeError "Cannot read properties of undefined (reading 'value')").
Proof. repeat split. eexists. split; reflexivity. Qed.

(** C6 as stated fails: the response has HTTP status 500 and a body
    that parses; the failure of the call is the route failure, with
    the message built at line 9. *)
Lemma server_error_is_route_failure :
  network server_error 0 (Adapter.url "95131" "60601")
  = Response 500 (Json (Obj [("status", Str "UNKNOWN_ERROR")])) /\
  http_ok 500 = false /\
  fst (Adapter.getDistance (engine := v8) "95131" "60601" server_error)
  = Throw (RouteNotFound "No route found from 95131 to 60601").
Proof. repeat split. Qed.

End Runs.

(* ------------------------------------------------------------------ *)
(** * More on the batch *)
(* ------------------------------------------------------------------ *)

Section MoreBatch.
Context {engine : Engine}.

Lemma outcomes_at (zips : list string) (dest : string) :
  forall w i zip,
    nth_error zips i = Some zip ->
    nth_error (outcomes zips dest w) i
    = Some (Adapter.getDistance_outcome (trim zip) (trim dest)
              (network w (List.length (requests w) + i)
                       (Adapter.url (trim zip) (trim dest)))).
Proof.
  induction zips as [|z rest IH]; intros w [|i] zip H; simpl in *; try discriminate.
  - injection H as ->. now rewrite Nat.add_0_r.
  - rewrite (IH _ i zip H). simpl. rewrite length_app. simpl.
    now replace (List.length (requests w) + 1 + i)%nat
      with (List.length (requests w) + Datatypes.S i)%nat by lia.
Qed.

Lemma for_of_network (zips : list string) (dest : string) :
  forall acc w, network (snd (Batch.for_of zips dest acc w)) = network w.
Proof.
  induction zips as [|z rest IH]; intros acc w; simpl; [reflexivity|]. now rewrite IH.
Qed.

Lemma computeBatch_network (zips : list string) (dest : string) (w : World) :
  network (snd (Batch.computeBatch zips dest w)) = network w.
Proof.
  unfold Batch.computeBatch. pose proof (for_of_network zips dest [] w) as H.
  destruct (Batch.for_of zips dest [] w). exact H.
Qed.

(** C8. For every source and destination, the call for the source is
    made on the trimmed codes: each is the code as typed without the
    white space before and after it, with none left at either end,
    and the request of the call carries them. The record of the
    source is the one pushed for the outcome of that call, and its
    [source] is the code as typed, not trimmed, on success and on
    failure. *)
Theorem trimmed_calls_untrimmed_source (zips : list string) (dest : string) (w : World)
        (i : nat) (zip : string) :
  nth_error zips i = Some zip ->
  let n := List.length (requests w) in
  let batch := fst (Batch.computeBatch zips dest w) in
  let sent := requests (snd (Batch.computeBatch zips dest w)) in
  let address :=
    ("https://distancefindapi.onrender.com/api/distance?origins="
       ++ trim zip ++ "&destinations=" ++ trim dest)%string in
  let outcome := Adapter.getDistance_outcome (trim zip) (trim dest) (network w (n + i) address) in
  (padded_from (trim zip) zip /\
   starts_white (trim zip) = false /\ ends_white (trim zip) = false) /\
  (padded_from (trim dest) dest /\
   starts_white (trim dest) = false /\ ends_white (trim dest) = false) /\
  nth_error sent (n + i) = Some address /\
  nth_error (outcomes zips dest w) i = Some outcome /\
  exists r,
    nth_error batch i = Some r /\
    Batch.source (Batch.entry r) = zip /\
    (forall res, outcome = Return res ->
                 Batch.entry r
                 = {| Batch.source := zip;
                      Batch.distanceKm := Some (Adapter.distanceKm res);
                      Batch.distanceMiles := Some (Adapter.distanceMiles res);
                      Batch.durationMins := Some (Adapter.durationMins res);
                      Batch.error := None |}) /\
    (forall err, outcome = Throw err ->
                 Batch.entry r
                 = {| Batch.source := zip;
                      Batch.distanceKm := None;
                      Batch.distanceMiles := None;
                      Batch.durationMins := None;
                      Batch.error := Some (message err) |}).
Proof.
  intros Hz n batch sent address outcome.
  split; [apply trim_spec|]. split; [apply trim_spec|].
  destruct (batch_nth zips dest w i zip Hz) as (o & r & Ho & Hr & He).
  pose proof (outcomes_at zips dest w i zip Hz) as Hat.
  fold n in Hat. change (Adapter.url (trim zip) (trim dest)) with address in Hat.
  fold outcome in Hat.
  split; [|split; [exact Hat|]].
  - unfold sent. rewrite computeBatch_requests, nth_error_app2 by (unfold n; lia).
    replace (n + i - List.length (requests w))%nat with i by (unfold n; lia).
    now rewrite nth_error_map, Hz.
  - rewrite Hat in Ho. injection Ho as <-.
    exists r. split; [exact Hr|]. rewrite He. split; [now destruct outcome|].
    split; [now intros res -> | now intros err ->].
Qed.

(** X9. The calls of a batch are made one after the other in the order
    of the sources: when [n] requests were sent before the batch, the
    call for the source at position [i] is the request number [n + i],
    for the trimmed codes, and its outcome is what [getDistance] makes
    of the answer to that request. *)
Theorem calls_in_order (zips : list string) (dest : string) (w : World)
        (i : nat) (zip : string) :
  nth_error zips i = Some zip ->
  let n := List.length (requests w) in
  let w' := snd (Batch.computeBatch zips dest w) in
  nth_error (requests w') (n + i) = Some (Adapter.url (trim zip) (trim dest)) /\
  nth_error (outcomes zips dest w) i
  = Some (Adapter.getDistance_outcome (trim zip) (trim dest)
            (network w (n + i) (Adapter.url (trim zip) (trim dest)))) /\
  List.length (requests w') = (n + List.length zips)%nat.
Proof.
  intros H n w'. unfold w'. rewrite computeBatch_requests. repeat split.
  - rewrite nth_error_app2 by (unfold n; lia).
    replace (n + i - List.length (requests w))%nat with i by (unfold n; lia).
    rewrite nth_error_map, H. reflexivity.
  - now apply outcomes_at.
  - rewrite length_app, length_map. reflexivity.
Qed.

Lemma handleSubmit_batch (st : App.State) (w : World) :
  App.handleSubmit st w
  = (App.submitted (App.submitting st)
                   (fst (Batch.computeBatch (App.sourceZips st) (App.destZip st) w)),
     snd (Batch.computeBatch (App.sourceZips st) (App.destZip st) w)).
Proof.
  unfold App.handleSubmit.
  now destruct (Batch.computeBatch (App.sourceZips st) (App.destZip st) w).
Qed.

(** X10. Nothing is kept from one submission to the next: submitting
    twice sends the four requests twice, the second time as the
    requests number [n + 4] to [n + 7], and the results published by the
    second submission are those of its own batch. *)
Theorem resubmission_requests_again (st : App.State) (w : World) :
  let st1 := fst (App.handleSubmit st w) in
  let w1 := snd (App.handleSubmit st w) in
  let st2 := fst (App.handleSubmit st1 w1) in
  let w2 := snd (App.handleSubmit st1 w1) in
  let sent := urls (App.sourceZips st) (App.destZip st) in
  requests w2 = (requests w ++ sent ++ sent)%list /\
  App.results st2 = fst (Batch.computeBatch (App.sourceZips st) (App.destZip st) w1) /\
  forall i zip,
    nth_error (App.sourceZips st) i = Some zip ->
    nth_error (outcomes (App.sourceZips st) (App.destZip st) w1) i
    = Some (Adapter.getDistance_outcome (trim zip) (trim (App.destZip st))
              (network w (List.length (requests w) + 4 + i)
                       (Adapter.url (trim zip) (trim (App.destZip st))))).
Proof.
  cbv zeta. rewrite !handleSubmit_batch. simpl fst. simpl snd.
  rewrite ?handleSubmit_batch. simpl fst. simpl snd.
  change (App.sourceZips (App.submitted (App.submitting st) _)) with (App.sourceZips st).
  change (App.destZip (App.submitted (App.submitting st) _)) with (App.destZip st).
  split; [|split].
  - unfold urls, App.sourceZips. simpl. now rewrite <- !app_assoc.
  - reflexivity.
  - intros i zip H. rewrite (outcomes_at _ _ _ i zip H). simpl.
    rewrite !length_app. simpl.
    now replace (List.length (requests w) + 1 + 1 + 1 + 1 + i)%nat
      with (List.length (requests w) + 4 + i)%nat by lia.
Qed.

(** X1. The records flagged in a batch all show one distance: any two
    of them hold distances that are [===]. *)
Theorem flagged_share_distance (zips : list string) (dest : string) (w : World)
        (r1 r2 : Batch.OutcomeRecord) :
  In r1 (fst (Batch.computeBatch zips dest w)) ->
  In r2 (fst (Batch.computeBatch zips dest w)) ->
  Batch.isMin r1 = true -> Batch.isMin r2 = true ->
  exists d1 d2,
    Batch.distanceKm (Batch.entry r1) = Some d1 /\
    Batch.distanceKm (Batch.entry r2) = Some d2 /\
    strict_eq d1 d2 = true.
Proof.
  rewrite computeBatch_collected. intros H1 H2 F1 F2.
  apply finalResults_in in H1 as [_ E1]. apply finalResults_in in H2 as [_ E2].
  rewrite F1 in E1. rewrite F2 in E2. symmetry in E1, E2.
  apply andb_prop in E1 as [_ E1]. apply andb_prop in E2 as [_ E2].
  destruct (Batch.distanceKm (Batch.entry r1)) as [d1|]; [|discriminate].
  destruct (Batch.distanceKm (Batch.entry r2)) as [d2|]; [|discriminate].
  exists d1, d2. repeat split. simpl in *.
  eapply eq_trans; [exact E1 | apply eq_sym, E2].
Qed.

Lemma strict_eq_NaN (x : number) : strict_eq x NaN = false.
Proof. now destruct x. Qed.

(** X3. One success whose distance is [NaN], or one failure whose
    message is empty, and no record of the batch is flagged, whatever
    the other calls returned. *)
Theorem poisoned_batch (zips : list string) (dest : string) (w : World) :
  (exists res, In (Return res) (outcomes zips dest w) /\
               is_nan (Adapter.distanceKm res) = true) \/
  (exists err, In (Throw err) (outcomes zips dest w) /\ message err = "") ->
  forall r, In r (fst (Batch.computeBatch zips dest w)) -> Batch.isMin r = false.
Proof.
  intros Hbad r Hr. rewrite computeBatch_collected in Hr.
  apply finalResults_in in Hr as [_ ->].
  assert (Hmin : Batch.minDistance (collected zips (outcomes zips dest w)) = NaN).
  { assert (Hin : forall o, In o (outcomes zips dest w) ->
                            exists zip, In (Batch.push zip o)
                                           (collected zips (outcomes zips dest w))).
    { intros o Ho. apply In_nth_error in Ho as (i & Hi).
      assert (Hlt : (i < List.length zips)%nat).
      { rewrite <- (outcomes_length zips dest w). apply nth_error_Some. congruence. }
      destruct (nth_error zips i) as [zip|] eqn:Hz;
        [|apply nth_error_None in Hz; lia].
      exists zip. eapply nth_error_In. apply collected_nth; eassumption. }
    unfold Batch.minDistance, Math_min. apply min_loop_has_nan.
    rewrite Exists_exists.
    destruct Hbad as [(res & Ho & Hnan) | (err & Ho & Hmsg)];
      destruct (Hin _ Ho) as (zip & He).
    - exists (Adapter.distanceKm res). split; [|exact Hnan].
      apply in_map_iff. exists (Some (Adapter.distanceKm res)). split; [reflexivity|].
      change (Some (Adapter.distanceKm res))
        with (Batch.distanceKm (Batch.push zip (Return res))).
      now apply valid_distance.
    - exists NaN. split; [|reflexivity].
      apply in_map_iff. exists None. split; [reflexivity|].
      change None with (Batch.distanceKm (Batch.push zip (Throw err))).
      apply valid_distance; [assumption|]. simpl. now rewrite Hmsg. }
  rewrite Hmin. destruct (Batch.distanceKm (Batch.entry r)) as [d|]; simpl.
  - now rewrite strict_eq_NaN, andb_false_r.
  - apply andb_false_r.
Qed.

(** X2. When at least one call succeeds, no success holds a [NaN]
    distance and no failure has an empty message, at least one record
    of the batch is flagged. *)
Theorem some_flagged (zips : list string) (dest : string) (w : World) :
  (exists res, In (Return res) (outcomes zips dest w)) ->
  (forall res, In (Return res) (outcomes zips dest w) ->
               not_nan (Adapter.distanceKm res)) ->
  (forall err, In (Throw err) (outcomes zips dest w) -> message err <> "") ->
  exists r, In r (fst (Batch.computeBatch zips dest w)) /\ Batch.isMin r = true.
Proof.
  intros (res0 & H0) Hnan Hmsg. rewrite computeBatch_collected.
  set (l := collected zips (outcomes zips dest w)).
  assert (Hvalid : forall e, In e l -> falsy (Batch.error e) = true ->
                             exists x, Batch.distanceKm e = Some x /\ not_nan x).
  { intros e He Hf. destruct (collected_pushed _ _ _ He) as (zip & [err|res] & Ho & ->).
    - simpl in Hf. apply String.eqb_eq in Hf. now apply Hmsg in Ho.
    - eexists. split; [reflexivity | now apply Hnan]. }
  assert (Hall : Forall not_nan (map coerce (Batch.validDistances l))).
  { unfold Batch.validDistances. rewrite !Forall_map, Forall_forall.
    intros e He. apply filter_In in He as [He Hf].
    destruct (Hvalid e He Hf) as (x & -> & Hx). exact Hx. }
  assert (Hsome : exists e0 x0, In e0 l /\ falsy (Batch.error e0) = true /\
                                Batch.distanceKm e0 = Some x0).
  { apply In_nth_error in H0 as (i & Hi).
    assert (Hlt : (i < List.length zips)%nat).
    { rewrite <- (outcomes_length zips dest w). apply nth_error_Some. congruence. }
    destruct (nth_error zips i) as [zip|] eqn:Hz; [|apply nth_error_None in Hz; lia].
    exists (Batch.push zip (Return res0)), (Adapter.distanceKm res0).
    repeat split. eapply nth_error_In. apply collected_nth; eassumption. }
  destruct (min_loop_spec _ Infinity eq_refl Hall) as (Nm & _ & F & D).
  fold (Math_min (Batch.validDistances l)) in *. fold (Batch.minDistance l) in *.
  assert (Hfound : exists e x, In e l /\ falsy (Batch.error e) = true /\
                               Batch.distanceKm e = Some x /\
                               strict_eq x (Batch.minDistance l) = true).
  { destruct D as [D | D].
    - destruct Hsome as (e0 & x0 & He0 & Hf0 & Hx0). exists e0, x0. repeat split; auto.
      apply le_antisym.
      + eapply le_trans; [apply le_Infinity | apply eq_le, eq_sym, D].
        destruct (Hvalid e0 He0 Hf0) as (x & Hx & Hn). congruence.
      + rewrite Forall_forall in F. apply (F x0).
        apply in_map_iff. exists (Some x0). split; [reflexivity|].
        rewrite <- Hx0. now apply valid_distance.
    - rewrite Exists_exists in D. destruct D as (y & Hy & E).
      apply in_map_iff in Hy as (a & <- & Ha).
      unfold Batch.validDistances in Ha. apply in_map_iff in Ha as (e & <- & He).
      apply filter_In in He as [He Hf].
      destruct (Hvalid e He Hf) as (x & Hx & _). exists e, x. repeat split; auto.
      rewrite Hx in E. simpl in E. now apply eq_sym. }
  destruct Hfound as (e & x & He & Hf & Hx & Heq).
  exists {| Batch.entry := e;
            Batch.isMin := falsy (Batch.error e)
                           && Batch.equals (Batch.distanceKm e) (Batch.minDistance l) |}.
  split.
  - unfold Batch.finalResults. apply in_map_iff. exists e. split; [reflexivity | exact He].
  - simpl. rewrite Hf, Hx. simpl. exact Heq.
Qed.

End MoreBatch.

(* ------------------------------------------------------------------ *)
(** * Padded and blank codes *)
(* ------------------------------------------------------------------ *)

Section PaddedCodes.
Context {engine : Engine}.

Lemma outcomes_trim (zips : list string) :
  forall zips' dest dest' w,
    map trim zips' = map trim zips -> trim dest' = trim dest ->
    outcomes zips' dest' w = outcomes zips dest w.
Proof.
  induction zips as [|z rest IH]; intros [|z' rest'] dest dest' w Hz Hd;
    simpl in *; try discriminate; [reflexivity|].
  injection Hz as Hz Hrest. rewrite Hz, Hd. f_equal. now apply IH.
Qed.

Lemma padded_trims (zips zips' : list string) :
  Forall2 padded_from zips zips' -> map trim zips' = map trim zips.
Proof.
  induction 1 as [|z z' rest rest' Hz _ IH]; simpl; [reflexivity|].
  now rewrite (trim_padded _ _ Hz), IH.
Qed.

Lemma collected_figures (zips : list string) :
  forall zips' outs,
    List.length zips' = List.length zips ->
    map (fun e => (Batch.distanceKm e, Batch.distanceMiles e, Batch.durationMins e,
                   Batch.error e)) (collected zips' outs)
    = map (fun e => (Batch.distanceKm e, Batch.distanceMiles e, Batch.durationMins e,
                     Batch.error e)) (collected zips outs).
Proof.
  unfold collected.
  induction zips as [|z rest IH]; intros [|z' rest'] [|o outs] H; simpl in *;
    try discriminate; try reflexivity.
  f_equal; [now destruct o | apply IH; lia].
Qed.

Lemma validDistances_figures (l : list Batch.Entry) :
  forall l',
    map (fun e => (Batch.distanceKm e, Batch.distanceMiles e, Batch.durationMins e,
                   Batch.error e)) l'
    = map (fun e => (Batch.distanceKm e, Batch.distanceMiles e, Batch.durationMins e,
                     Batch.error e)) l ->
    Batch.validDistances l' = Batch.validDistances l.
Proof.
  unfold Batch.validDistances.
  induction l as [|e l IH]; intros [|e' l'] H; simpl in *; try discriminate;
    [reflexivity|].
  injection H as Hkm _ _ Herr Hrest. rewrite Herr.
  destruct (falsy (Batch.error e)); simpl; [rewrite Hkm; f_equal|]; now apply IH.
Qed.

Lemma finalResults_figures (l l' : list Batch.Entry) :
  map (fun e => (Batch.distanceKm e, Batch.distanceMiles e, Batch.durationMins e,
                 Batch.error e)) l'
  = map (fun e => (Batch.distanceKm e, Batch.distanceMiles e, Batch.durationMins e,
                   Batch.error e)) l ->
  map Batch.isMin (Batch.finalResults l') = map Batch.isMin (Batch.finalResults l).
Proof.
  intros H. unfold Batch.finalResults, Batch.minDistance.
  rewrite (validDistances_figures l l' H). rewrite !map_map. simpl.
  generalize (Math_min (Batch.validDistances l)). intros m.
  revert l' H. induction l as [|e l IH]; intros [|e' l'] H; simpl in *;
    try discriminate; [reflexivity|].
  injection H as Hkm _ _ Herr Hrest. rewrite Hkm, Herr. f_equal. now apply IH.
Qed.

(** X4. White space typed around the codes changes nothing but the
    [source] shown on the records: the requests, the outcomes of the
    calls, the figures and messages of the records and their flags are
    those of the batch for the codes without it. *)
Theorem padding_ignored (zips zips' : list string) (dest dest' : string) (w : World) :
  Forall2 padded_from zips zips' ->
  padded_from dest dest' ->
  let batch := fst (Batch.computeBatch zips dest w) in
  let batch' := fst (Batch.computeBatch zips' dest' w) in
  requests (snd (Batch.computeBatch zips' dest' w))
  = requests (snd (Batch.computeBatch zips dest w)) /\
  outcomes zips' dest' w = outcomes zips dest w /\
  map Batch.isMin batch' = map Batch.isMin batch /\
  map (fun r => (Batch.distanceKm (Batch.entry r), Batch.distanceMiles (Batch.entry r),
                 Batch.durationMins (Batch.entry r), Batch.error (Batch.entry r))) batch'
  = map (fun r => (Batch.distanceKm (Batch.entry r), Batch.distanceMiles (Batch.entry r),
                   Batch.durationMins (Batch.entry r), Batch.error (Batch.entry r))) batch /\
  map (fun r => Batch.source (Batch.entry r)) batch' = zips'.
Proof.
  intros Hz Hd batch batch'.
  pose proof (padded_trims _ _ Hz) as Ht. pose proof (trim_padded _ _ Hd) as Htd.
  pose proof (outcomes_trim zips zips' dest dest' w Ht Htd) as Ho.
  assert (Hlen : List.length zips' = List.length zips)
    by (symmetry; eapply Forall2_length; eassumption).
  assert (Hfig := collected_figures zips zips' (outcomes zips dest w) Hlen).
  unfold batch, batch'. rewrite !computeBatch_collected, !computeBatch_requests, Ho.
  repeat split.
  - f_equal. rewrite <- (map_map trim (fun t => Adapter.url t (trim dest'))).
    rewrite <- (map_map trim (fun t => Adapter.url t (trim dest))).
    now rewrite Ht, Htd.
  - now apply finalResults_figures.
  - rewrite <- (map_map Batch.entry
                  (fun e => (Batch.distanceKm e, Batch.distanceMiles e,
                             Batch.durationMins e, Batch.error e))).
    rewrite <- (map_map Batch.entry
                  (fun e => (Batch.distanceKm e, Batch.distanceMiles e,
                             Batch.durationMins e, Batch.error e))
                  (Batch.finalResults (collected zips _))).
    now rewrite !finalResults_entries.
  - rewrite <- (map_map Batch.entry Batch.source), finalResults_entries.
    apply collected_sources. rewrite outcomes_length. now symmetry.
Qed.

Lemma request_at (zips : list string) (dest : string) (w : World) (i : nat) (zip : string) :
  nth_error zips i = Some zip ->
  nth_error (requests (snd (Batch.computeBatch zips dest w))) (List.length (requests w) + i)
  = Some (Adapter.url (trim zip) (trim dest)).
Proof.
  intros H. rewrite computeBatch_requests, nth_error_app2 by lia.
  replace (List.length (requests w) + i - List.length (requests w))%nat with i by lia.
  now rewrite nth_error_map, H.
Qed.

Lemma submittable_values (st : App.State) :
  submittable st
  = negb (String.eqb (App.sourceZip1 st) "") && negb (String.eqb (App.sourceZip2 st) "")
    && negb (String.eqb (App.sourceZip3 st) "") && negb (String.eqb (App.sourceZip4 st) "")
    && negb (String.eqb (App.destZip st) "").
Proof.
  unfold submittable, View.form, View.input.
  cbn [valid valueMissing prop_of String.eqb Ascii.eqb Bool.eqb negb andb].
  now rewrite !andb_true_r, !andb_assoc.
Qed.

(** X5. The form stops an empty code, not a code made of white space
    only: when the browser lets the form through, such a code is not
    turned away by [handleSubmit] either, and its call is made with the
    empty code in the URL; the same holds of the destination. *)
Theorem blank_code_requested (st : App.State) (w : World) (i : nat) (zip : string) :
  submittable st = true ->
  nth_error (App.sourceZips st) i = Some zip ->
  all_white zip = true ->
  let sent := nth_error (requests (snd (App.handleSubmit st w)))
                        (List.length (requests w) + i) in
  zip <> "" /\
  sent = Some ("https://distancefindapi.onrender.com/api/distance?origins=&destinations="
                 ++ trim (App.destZip st))%string /\
  (all_white (App.destZip st) = true ->
   App.destZip st <> "" /\
   sent = Some "https://distancefindapi.onrender.com/api/distance?origins=&destinations=") /\
  (forall st' : App.State,
      In "" (App.sourceZips st' ++ [App.destZip st'])%list -> submittable st' = false).
Proof.
  intros Hform H Hw sent.
  assert (Hfilled : forall st' : App.State,
             submittable st' = true ->
             Forall (fun v => v <> "") (App.sourceZips st' ++ [App.destZip st'])%list).
  { intros st' Hs. rewrite submittable_values in Hs.
    repeat (apply andb_prop in Hs as [Hs ?]).
    repeat constructor;
      match goal with
      | E : negb (String.eqb ?v "") = true |- ?v <> "" =>
          apply negb_true_iff, String.eqb_neq in E; exact E
      end. }
  pose proof (Hfilled st Hform) as Hst. rewrite Forall_forall in Hst.
  split; [|split; [|split]].
  - apply Hst, in_or_app. left. eapply nth_error_In, H.
  - unfold sent. rewrite handleSubmit_batch. cbn [snd].
    rewrite (request_at _ _ _ _ _ H). now rewrite (trim_all_white _ Hw).
  - intros Hd. split; [apply Hst, in_or_app; right; now left|].
    unfold sent. rewrite handleSubmit_batch. cbn [snd].
    rewrite (request_at _ _ _ _ _ H).
    now rewrite (trim_all_white _ Hw), (trim_all_white _ Hd).
  - intros st' Hin. destruct (submittable st') eqn:E; [|reflexivity].
    apply Hfilled in E. rewrite Forall_forall in E. now apply E in Hin.
Qed.

End PaddedCodes.

(* ------------------------------------------------------------------ *)
(** * More on [getDistance] *)
(* ------------------------------------------------------------------ *)

Section MoreAdapter.
Context {engine : Engine}.

(** X6. The codes are spliced into the URL as they are, without any
    encoding: a source that contains the text of the destination
    parameter yields the request of another pair of codes. *)
Theorem url_not_encoded (a b c : string) :
  Adapter.url (a ++ "&destinations=" ++ b) c = Adapter.url a (b ++ "&destinations=" ++ c).
Proof.
  unfold Adapter.url. f_equal.
  rewrite !append_assoc. reflexivity.
Qed.

(** X7. The outcome of [getDistance] on a parsed body depends on the
    body only through its top-level status and the first element of
    its first row: two bodies that agree on what reading these two
    gives have the same outcome. For a body of the expected shape, the
    other elements of the first row and the other rows change nothing,
    be they routes, failures or anything else. *)
Theorem only_first_element (s d : string) (data data' : jsval) :
  Get data "status" = Get data' "status" ->
  Adapter.first_element data = Adapter.first_element data' ->
  Adapter.getDistance_data s d data = Adapter.getDistance_data s d data' /\
  (forall status first elements rows,
      Adapter.getDistance_data s d (body_of status first elements rows)
      = Adapter.getDistance_data s d (body_of status first [] [])).
Proof.
  intros Hstatus Hfirst. split.
  - unfold Adapter.getDistance_data, Adapter.no_route.
    rewrite Hstatus, Hfirst. reflexivity.
  - intros status first elements rows.
    unfold Adapter.getDistance_data, Adapter.no_route, Adapter.first_element, body_of.
    cbn [Get Get0 own bind String.eqb Ascii.eqb Bool.eqb]. reflexivity.
Qed.

(** X8. A first element marked "OK" whose distance has no value does
    not make the call fail: the distance in kilometres and in miles
    are [NaN] and the duration is computed as usual. With the value
    [null] both distances are zero. *)
Theorem value_absent_or_null (s d : string) (data el dist dur : jsval) (sec : number) :
  Get data "status" = Return (Str "OK") ->
  Adapter.first_element data = Return el ->
  Get el "status" = Return (Str "OK") ->
  Get el "distance" = Return dist ->
  Get el "duration" = Return dur ->
  Get dur "value" = Return (Num sec) ->
  (Get dist "value" = Return Undefined ->
   Adapter.getDistance_data s d data
   = Return {| Adapter.distanceKm := NaN; Adapter.distanceMiles := NaN;
               Adapter.durationMins := round2 (div sec (of_Z 60)) |}) /\
  (Get dist "value" = Return Null ->
   Adapter.getDistance_data s d data
   = Return {| Adapter.distanceKm := S754_zero false;
               Adapter.distanceMiles := S754_zero false;
               Adapter.durationMins := round2 (div sec (of_Z 60)) |}).
Proof.
  intros Hs Hel Hst Hdist Hdur Hsec.
  assert (Hcheck : Adapter.no_route data = Return false).
  { unfold Adapter.no_route. rewrite Hs. simpl. rewrite Hel. simpl. now rewrite Hst. }
  split; intros Hv; unfold Adapter.getDistance_data; rewrite Hcheck; simpl;
    rewrite Hel; simpl; rewrite Hdist; simpl; rewrite Hv; simpl;
    rewrite Hdur; simpl; rewrite Hsec; simpl; reflexivity.
Qed.

End MoreAdapter.

(* ------------------------------------------------------------------ *)
(** * More on the numbers *)
(* ------------------------------------------------------------------ *)

Section MoreNumbers.
Context {engine : Engine}.

Lemma below_1e21_spec (m : positive) (e : Z) :
  below_1e21 m e = true <-> (to_Q (S754_finite false m e) < inject_Z (10 ^ 21))%Q.
Proof.
  unfold below_1e21. set (T := 10 ^ 21).
  destruct e as [|p|k]; rewrite Z.ltb_lt;
    unfold to_Q, Qlt, inject_Z; cbn [Qnum Qden];
    rewrite ?Pos2Z.inj_pow; lia.
Qed.

Lemma nearest_half_up (m : positive) (e : Z) :
  let x := to_Q (S754_finite false m e) in
  0 <= nearest m e 2 /\
  (inject_Z (nearest m e 2) - (1 # 2) <= inject_Z 100 * x)%Q /\
  (inject_Z 100 * x < inject_Z (nearest m e 2) + (1 # 2))%Q.
Proof.
  intros x. subst x. unfold nearest. change (10 ^ 2) with 100.
  assert (Hexact : forall a b : Z,
             (inject_Z (a * b) - (1 # 2) <= inject_Z a * inject_Z b)%Q /\
             (inject_Z a * inject_Z b < inject_Z (a * b) + (1 # 2))%Q).
  { intros a b. unfold Qle, Qlt, Qminus, Qplus, Qmult, Qopp, inject_Z. simpl. lia. }
  destruct e as [|p|k]; simpl to_Q.
  - split; [lia | apply Hexact].
  - assert (0 < 2 ^ Z.pos p) by (apply Z.pow_pos_nonneg; lia).
    split; [nia | apply Hexact].
  - set (P := 2 ^ Z.pos k).
    assert (HP : 0 < P) by (apply Z.pow_pos_nonneg; lia).
    assert (E : 2 ^ (Z.pos k + 1) = 2 * P) by (unfold P; rewrite Z.pow_add_r; lia).
    rewrite E.
    pose proof (Z.div_mod (2 * 100 * Z.pos m + P) (2 * P) ltac:(lia)) as Hdm.
    pose proof (Z.mod_pos_bound (2 * 100 * Z.pos m + P) (2 * P) ltac:(lia)) as Hb.
    assert (Hn : 0 <= (2 * 100 * Z.pos m + P) / (2 * P)) by (apply Z.div_pos; lia).
    set (n := (2 * 100 * Z.pos m + P) / (2 * P)) in *.
    split; [exact Hn|].
    unfold Qle, Qlt, Qminus, Qplus, Qmult, Qopp, inject_Z. simpl.
    rewrite ?Pos.mul_1_r, Pos2Z.inj_pow. fold P. lia.
Qed.

Lemma round2_to_two_places (v : number) : to_two_places v (round2 v).
Proof.
  destruct v as [s|s| |s m e]; try reflexivity.
  unfold to_two_places. cbv zeta. split.
  - intros Hlow. apply below_1e21_spec in Hlow.
    destruct (nearest_half_up m e) as (Hn & Hlo & Hhi).
    exists (nearest m e 2). unfold round2, toFixed. rewrite Hlow.
    repeat split; assumption.
  - intros Hhigh. unfold round2, toFixed.
    destruct (below_1e21 m e) eqn:E; [|now split].
    apply below_1e21_spec in E. exfalso. eapply Qlt_not_le; eassumption.
Qed.

(** X11. Each field of a result of [getDistance] is its unrounded value
    put to two decimal places: a finite value below 10^21 in magnitude
    becomes the Number read back from the one whole number [n] of
    hundredths with [n - 1/2 <= 100 |v| < n + 1/2], halves going away
    from zero, under the sign of the value; a value from 10^21 on,
    [NaN] and the infinities are returned as they are, and a zero as
    [+0]. *)
Theorem fields_to_two_places (s d : string) (data : jsval)
        (r : Adapter.DistanceQueryResult) :
  Adapter.getDistance_data s d data = Return r ->
  exists m sec,
    usable data m sec /\
    to_two_places (div m (of_Z 1000)) (Adapter.distanceKm r) /\
    to_two_places (mul (div m (of_Z 1000)) (decimal 621371 6)) (Adapter.distanceMiles r) /\
    to_two_places (div sec (of_Z 60)) (Adapter.durationMins r).
Proof.
  intros H. apply call_succeeds in H as (m & sec & U & ->).
  exists m, sec. split; [exact U|].
  repeat split; apply round2_to_two_places.
Qed.

Lemma shr_1_nonneg (mrs : shr_record) : 0 <= shr_m mrs -> 0 <= shr_m (shr_1 mrs).
Proof. destruct mrs as [[|[p|p|]|p] r s]; simpl; lia. Qed.

Lemma iter_shr_1_nonneg (p : positive) :
  forall mrs, 0 <= shr_m mrs -> 0 <= shr_m (iter_pos shr_1 p mrs).
Proof.
  induction p as [p IH|p IH|]; intros mrs H; simpl.
  - apply IH, IH, shr_1_nonneg, H.
  - apply IH, IH, H.
  - apply shr_1_nonneg, H.
Qed.

Lemma shr_fexp_nonneg (m e : Z) (l : location) :
  0 <= m -> 0 <= shr_m (fst (shr_fexp prec emax m e l)).
Proof.
  intros H. unfold shr_fexp, shr.
  assert (H0 : 0 <= shr_m (shr_record_of_loc m l)) by (destruct l as [|[]]; exact H).
  destruct (fexp prec emax (Zdigits2 m + e) - e); simpl; auto.
  now apply iter_shr_1_nonneg.
Qed.

Lemma binary_round_aux_not_nan (sx : bool) (mx ex : Z) (lx : location) :
  0 <= mx -> not_nan (binary_round_aux prec emax sx mx ex lx).
Proof.
  intros H. unfold binary_round_aux.
  pose proof (shr_fexp_nonneg mx ex lx H) as H1.
  destruct (shr_fexp prec emax mx ex lx) as [mrs' e']. simpl in H1.
  assert (H2 : 0 <= round_nearest_even (shr_m mrs') (loc_of_shr_record mrs')).
  { unfold round_nearest_even. destruct (loc_of_shr_record mrs') as [|[]];
      try destruct (Z.even (shr_m mrs')); lia. }
  pose proof (shr_fexp_nonneg _ e' loc_Exact H2) as H3.
  destruct (shr_fexp prec emax _ e' loc_Exact) as [mrs'' e'']. simpl in H3.
  destruct (shr_m mrs'') as [|p|p]; [reflexivity | | lia].
  now destruct (e'' <=? emax - prec).
Qed.

Lemma div_finite_not_nan (a : number) (s : bool) (m : positive) (e : Z) :
  not_nan a -> not_nan (div a (S754_finite s m e)).
Proof.
  destruct a as [sa|sa| |sa ma ea]; simpl; try reflexivity; try discriminate.
  intros _. unfold div, SFdiv, SFdiv_core_binary.
  set (m' := match _ with Z.pos _ => _ | _ => _ end).
  assert (Hm' : 0 <= m').
  { subst m'. destruct (_ - _ - _); try lia. apply Z.shiftl_nonneg. lia. }
  pose proof (Z.div_pos m' (Z.pos m) Hm' ltac:(lia)) as Hq.
  unfold Z.div in Hq. destruct (Z.div_eucl m' (Z.pos m)) as [q r]. simpl in Hq.
  now apply binary_round_aux_not_nan.
Qed.

Lemma mul_finite_not_nan (a : number) (s : bool) (m : positive) (e : Z) :
  not_nan a -> not_nan (mul a (S754_finite s m e)).
Proof.
  destruct a as [sa|sa| |sa ma ea]; simpl; try reflexivity; try discriminate.
  intros _. apply binary_round_aux_not_nan. lia.
Qed.

Lemma round2_not_nan (x : number) : not_nan x -> not_nan (round2 x).
Proof.
  destruct x as [s|s| |s m e]; try reflexivity; try discriminate.
  intros _. unfold round2, toFixed. destruct (below_1e21 m e); [|reflexivity].
  unfold parseFloat. destruct (nearest m e 2); try reflexivity.
  apply div_finite_not_nan. reflexivity.
Qed.

(** X12. When the distance value and the duration value of the first
    element are Numbers other than [NaN], as every number of a parsed
    body is, none of the three fields of the result is [NaN]. *)
Theorem numbers_in_numbers_out (s d : string) (data el dist dur : jsval)
        (m sec : number) (r : Adapter.DistanceQueryResult) :
  Adapter.getDistance_data s d data = Return r ->
  Adapter.first_element data = Return el ->
  Get el "distance" = Return dist -> Get dist "value" = Return (Num m) ->
  Get el "duration" = Return dur -> Get dur "value" = Return (Num sec) ->
  not_nan m -> not_nan sec ->
  not_nan (Adapter.distanceKm r) /\
  not_nan (Adapter.distanceMiles r) /\
  not_nan (Adapter.durationMins r).
Proof.
  intros H Hel Hdist Hm Hdur Hsec Nm Nsec.
  unfold Adapter.getDistance_data in H.
  apply bind_Return in H as ([|] & _ & H); [discriminate|].
  rewrite Hel in H. cbn [bind] in H. rewrite Hdist in H. cbn [bind] in H.
  rewrite Hm in H. cbn [bind ToNumber] in H. rewrite Hdur in H. cbn [bind] in H.
  rewrite Hsec in H. cbn [bind ToNumber] in H. injection H as <-.
  cbn [Adapter.distanceKm Adapter.distanceMiles Adapter.durationMins].
  repeat match goal with
         | |- context [div ?x ?c] =>
             lazymatch c with
             | S754_finite _ _ _ => fail
             | _ => let v := eval vm_compute in c in
                    replace c with v by (vm_compute; reflexivity)
             end
         | |- context [mul ?x ?c] =>
             lazymatch c with
             | S754_finite _ _ _ => fail
             | _ => let v := eval vm_compute in c in
                    replace c with v by (vm_compute; reflexivity)
             end
         end.
  repeat split; apply round2_not_nan;
    auto using div_finite_not_nan, mul_finite_not_nan.
Qed.

End MoreNumbers.

(* ------------------------------------------------------------------ *)
(** * The page: state and rendered tree *)
(* ------------------------------------------------------------------ *)

Section Page.
Context {engine : Engine}.

Lemma batch_length (zips : list string) (dest : string) (w : World) :
  List.length (fst (Batch.computeBatch zips dest w)) = List.length zips.
Proof. rewrite <- (batch_sources zips dest w) at 2. now rewrite length_map. Qed.

Lemma batch_one_of (zips : list string) (dest : string) (w : World) :
  Forall (fun r => xorb (has_result (Batch.entry r)) (has_error (Batch.entry r)) = true)
         (fst (Batch.computeBatch zips dest w)).
Proof.
  rewrite Forall_forall. intros r Hr.
  destruct (batch_pushed _ _ _ _ Hr) as (zip & o & _ & ->). apply push_one_of.
Qed.

Lemma handle_at_rest (ev : Handlers.event) (st : App.State) (w : World) :
  at_rest st -> at_rest (fst (Handlers.handle ev st w)).
Proof.
  intros (He & Hl & Hr & Hx). destruct ev as [f value| |]; cbn [Handlers.handle].
  - destruct f; repeat split; assumption.
  - repeat split; assumption.
  - rewrite handleSubmit_batch. unfold at_rest. cbn [fst].
    cbn [App.error App.loading App.results App.submitted App.submitting].
    repeat split.
    + right. apply (batch_length (App.sourceZips st)).
    + apply batch_one_of.
Qed.

(** X13. Whatever the user types, clicks and submits, starting from the
    page as it first shows and whatever the network answers, once the
    handlers have run the [error] of the state is empty, [loading] is
    off, and the results are either none or four records, each with a
    result or an error and never both. *)
Theorem page_at_rest (evs : list Handlers.event) (w : World) :
  at_rest (fst (Handlers.handle_all evs App.initial w)).
Proof.
  assert (H0 : at_rest App.initial) by (repeat split; auto).
  revert H0. generalize App.initial. revert w.
  induction evs as [|ev rest IH]; intros w st Hst; simpl; [exact Hst|].
  pose proof (handle_at_rest ev st w Hst) as H.
  destruct (Handlers.handle ev st w) as [st' w']. now apply IH.
Qed.

(** X14. The theme button is the one control left enabled while a batch
    runs. However many times it is pressed in the meantime, the state
    once the batch is published is the one reached by handling the
    submission to its end and pressing the button afterwards. *)
Theorem theme_clicks_during_batch (st : App.State) (w : World) (clicks : nat) :
  let final := fst (Batch.computeBatch (App.sourceZips st) (App.destZip st) w) in
  fst (App.handleSubmit st w) = Handlers.finish final (Handlers.begin st) /\
  Handlers.finish final (Nat.iter clicks Handlers.onClick (Handlers.begin st))
  = Nat.iter clicks Handlers.onClick (fst (App.handleSubmit st w)).
Proof.
  intros final. rewrite handleSubmit_batch. fold final. cbn [fst].
  split; [reflexivity|].
  induction clicks as [|n IH]; [reflexivity|].
  simpl. rewrite <- IH. reflexivity.
Qed.

(** X15. Typing in a field and pressing the theme button send no
    request and leave the results and their cards as they are: only a
    submission changes them. The theme button leaves the form as it is
    too, and pressing it twice restores the state. *)
Theorem only_submission_changes_cards (ev : Handlers.event) (st : App.State) (w : World) :
  ev <> Handlers.Submit ->
  snd (Handlers.handle ev st w) = w /\
  App.results (fst (Handlers.handle ev st w)) = App.results st /\
  View.grid (fst (Handlers.handle ev st w)) = View.grid st /\
  View.form (Handlers.onClick st) = View.form st /\
  Handlers.onClick (Handlers.onClick st) = st.
Proof.
  intros Hev. destruct ev as [f value| |]; [| |contradiction].
  - repeat split; try (now destruct f); now destruct st as [? ? ? ? ? ? ? ? []].
  - repeat split.
    + unfold View.grid. simpl. destruct (App.results st) as [|r rest]; [reflexivity|].
      f_equal. generalize 0%nat. generalize (r :: rest).
      induction l as [|x l IH]; intros n; simpl; [reflexivity|].
      f_equal; [|apply IH]. unfold View.card, View.cardStyle.
      now destruct (App.darkMode st).
    + now destruct st as [? ? ? ? ? ? ? ? []].
Qed.

(** X16. In a batch, a card is green exactly when its record is flagged
    and red exactly when its record holds a message that is not empty;
    every other card is blue. The text of a card is black in both
    themes. A green card shows the figures, never a message. *)
Theorem card_colours (zips : list string) (dest : string) (w : World)
        (r : Batch.OutcomeRecord) (darkMode : bool) (index : nat) :
  In r (fst (Batch.computeBatch zips dest w)) ->
  let background := View.get "backgroundColor" (View.cardStyle darkMode r) in
  (Batch.isMin r = true <-> background = View.str "#d4edda") /\
  (View.truthy (Batch.error (Batch.entry r)) = true <-> background = View.str "#f8d7da") /\
  (Batch.isMin r = false -> View.truthy (Batch.error (Batch.entry r)) = false ->
   background = View.str "#eaf2f8") /\
  View.get "color" (View.cardStyle darkMode r) = View.str "#000" /\
  (Batch.isMin r = true ->
   View.card darkMode index r
   = View.El "div" [("key", View.Key index);
                    ("style", View.Style (View.cardStyle darkMode r))]
             [View.El "h3" [] [View.Txt "From ZIP: ";
                               View.StrExpr (Some (Batch.source (Batch.entry r)))];
              View.figures r]).
Proof.
  intros Hr background.
  assert (Hflag : Batch.isMin r = true -> View.truthy (Batch.error (Batch.entry r)) = false).
  { intros Hmin. rewrite computeBatch_collected in Hr.
    apply finalResults_in in Hr as [_ E]. rewrite Hmin in E. symmetry in E.
    apply andb_prop in E as [E _]. unfold View.truthy. now rewrite E. }
  subst background. unfold View.card, View.cardStyle, View.get. simpl.
  destruct (View.truthy (Batch.error (Batch.entry r))) eqn:Et;
    destruct (Batch.isMin r) eqn:Em; destruct darkMode; simpl;
    try (specialize (Hflag eq_refl); discriminate);
    repeat split; intros; try discriminate; try reflexivity.
Qed.

(** X17. Once a submission is handled the page shows a grid of exactly
    four cards, in the order of the four sources and headed by the
    sources as typed. The grid is not there when the page first shows,
    nor while a batch runs: the cards of the previous batch are
    removed as soon as the next one starts. *)
Theorem grid_after_submission (st : App.State) (w : World) :
  let st' := fst (App.handleSubmit st w) in
  (exists r1 r2 r3 r4,
      App.results st' = [r1; r2; r3; r4] /\
      map (fun r => Batch.source (Batch.entry r)) [r1; r2; r3; r4]
      = [App.sourceZip1 st; App.sourceZip2 st; App.sourceZip3 st; App.sourceZip4 st] /\
      View.grid st'
      = View.El "div" [("style", View.Style View.styles_grid)]
                [View.card (App.darkMode st) 0 r1; View.card (App.darkMode st) 1 r2;
                 View.card (App.darkMode st) 2 r3; View.card (App.darkMode st) 3 r4]) /\
  View.grid (Handlers.begin st) = View.Nothing /\
  View.grid App.initial = View.Nothing.
Proof.
  intros st'. split; [|split; reflexivity].
  unfold st'. rewrite handleSubmit_batch. cbn [fst].
  pose proof (batch_length (App.sourceZips st) (App.destZip st) w) as Hlen.
  pose proof (batch_sources (App.sourceZips st) (App.destZip st) w) as Hsrc.
  unfold View.grid.
  cbn [App.results App.darkMode App.submitted App.submitting].
  destruct (fst (Batch.computeBatch (App.sourceZips st) (App.destZip st) w))
    as [|r1 [|r2 [|r3 [|r4 [|r5 rest]]]]]; simpl in Hlen; try discriminate.
  exists r1, r2, r3, r4. repeat split. exact Hsrc.
Qed.

Lemma controls_card (darkMode : bool) (index : nat) (r : Batch.OutcomeRecord) :
  controls (View.card darkMode index r) = [].
Proof.
  unfold View.card. simpl.
  now destruct (View.truthy (Batch.error (Batch.entry r))).
Qed.

Lemma controls_grid (st : App.State) : controls (View.grid st) = [].
Proof.
  unfold View.grid. destruct (App.results st) as [|r rest]; [reflexivity|].
  generalize (r :: rest). intros l. cbn [controls disabled_prop]. simpl.
  generalize 0%nat. induction l as [|x l IH]; intros n; [reflexivity|].
  cbn [View.cards]. rewrite controls_card. simpl. apply IH.
Qed.

(** X18. The five inputs and the submit button are the controls of the
    page that can be disabled, and each of them is disabled exactly
    when [loading] is on: all six while a batch runs, none once a
    submission has been handled. The theme button is never disabled. *)
Theorem controls_follow_loading (st : App.State) (w : World) :
  let six b := [("input", b); ("input", b); ("input", b); ("input", b);
                ("input", b); ("button", b)] in
  controls (View.render st) = six (App.loading st) /\
  controls (View.render (Handlers.begin st)) = six true /\
  controls (View.render (fst (App.handleSubmit st w))) = six false /\
  controls (View.topBar st) = [].
Proof.
  assert (H : forall s, controls (View.render s)
                        = [("input", App.loading s); ("input", App.loading s);
                           ("input", App.loading s); ("input", App.loading s);
                           ("input", App.loading s); ("button", App.loading s)]).
  { intros s. unfold View.render. cbn [controls disabled_prop String.eqb].
    simpl. rewrite controls_grid. reflexivity. }
  intros six. repeat split; apply H.
Qed.

End Page.

(* ------------------------------------------------------------------ *)
(** * More concrete runs *)
(* ------------------------------------------------------------------ *)

Section MoreRuns.

(** White space of more than one byte is removed like any other, and
    the last byte of a letter is not taken for white space. *)
Lemma trim_wide :
  trim wide_padded = "07305" /\
  trim (a_grave ++ " ") = a_grave /\
  trim (ideographic_space ++ no_break_space) = "".
Proof. repeat split. Qed.

Lemma trimmed_calls_untrimmed_source_witness :
  nth_error (requests (snd (Batch.computeBatch (engine := v8)
                              [" 95131"; "32220 "; wide_padded; "75050"] " 60601 "
                              four_routes))) 2
  = Some "https://distancefindapi.onrender.com/api/distance?origins=07305&destinations=60601" /\
  exists r,
    nth_error (fst (Batch.computeBatch (engine := v8)
                      [" 95131"; "32220 "; wide_padded; "75050"] " 60601 " four_routes)) 2
    = Some r /\
    Batch.source (Batch.entry r) = wide_padded /\
    Batch.distanceKm (Batch.entry r) = Some (of_Z 2).
Proof.
  destruct (trimmed_calls_untrimmed_source (engine := v8)
              [" 95131"; "32220 "; wide_padded; "75050"] " 60601 " four_routes
              2 wide_padded eq_refl)
    as (_ & _ & Hsent & _ & r & Hr & Hsource & Hres & _).
  split; [exact Hsent|].
  exists r. split; [exact Hr|]. split; [exact Hsource|].
  now rewrite (Hres _ eq_refl).
Defined.

Lemma flagged_share_distance_witness :
  exists d1 d2,
    Batch.distanceKm
      (Batch.entry (nth 0 (run tie_and_failure)
                        {| Batch.entry := Batch.failure "" (TypeError "");
                           Batch.isMin := false |})) = Some d1 /\
    Batch.distanceKm
      (Batch.entry (nth 1 (run tie_and_failure)
                        {| Batch.entry := Batch.failure "" (TypeError "");
                           Batch.isMin := false |})) = Some d2 /\
    strict_eq d1 d2 = true.
Proof.
  apply (flagged_share_distance (engine := v8) sample_sources "60601" tie_and_failure).
  - vm_compute. tauto.
  - vm_compute. tauto.
  - vm_compute. reflexivity.
  - vm_compute. reflexivity.
Defined.

Lemma some_flagged_witness :
  exists r, In r (run tie_and_failure) /\ Batch.isMin r = true.
Proof.
  apply (some_flagged (engine := v8) sample_sources "60601" tie_and_failure).
  - vm_compute. eexists. left. reflexivity.
  - intros res H. vm_compute in H.
    destruct H as [H | [H | [H | [H | []]]]]; try discriminate;
      injection H as <-; reflexivity.
  - intros err H. vm_compute in H.
    destruct H as [H | [H | [H | [H | []]]]]; try discriminate.
    injection H as <-. discriminate.
Defined.

Lemma poisoned_batch_witness :
  Forall (fun r => Batch.isMin r = false) (run tie_and_silent_failure).
Proof.
  apply Forall_forall.
  apply (poisoned_batch (engine := v8) sample_sources "60601" tie_and_silent_failure).
  right. exists (TransportError ""). split; [vm_compute; tauto | reflexivity].
Defined.

Lemma padding_ignored_witness :
  requests (snd (Batch.computeBatch (engine := v8) padded_sources " 60601 " four_routes))
  = requests (snd (Batch.computeBatch (engine := v8) sample_sources "60601" four_routes)) /\
  map Batch.isMin (fst (Batch.computeBatch (engine := v8) padded_sources " 60601 " four_routes))
  = map Batch.isMin (run four_routes).
Proof.
  destruct (padding_ignored (engine := v8) sample_sources padded_sources
                            "60601" " 60601 " four_routes) as (H1 & _ & H3 & _).
  - repeat constructor;
      first [ now exists "", "" | now exists " ", "" | now exists "", " "
            | now exists "  ", "  " ].
  - now exists " ", " ".
  - split; assumption.
Defined.

Lemma blank_code_requested_witness :
  submittable blank_first = true /\
  nth_error (requests (snd (App.handleSubmit (engine := v8) blank_first four_routes))) 0
  = Some "https://distancefindapi.onrender.com/api/distance?origins=&destinations=60601".
Proof.
  split; [reflexivity|].
  destruct (blank_code_requested (engine := v8) blank_first four_routes
                                 0 "   " eq_refl eq_refl eq_refl) as (_ & H & _).
  exact H.
Defined.

Lemma fields_to_two_places_witness :
  to_two_places (S754_finite false 6949617174986097 (-49))
                (S754_finite false 6952431924753203 (-49)).
Proof.
  destruct (fields_to_two_places (engine := v8) "95131" "60601" (ok_response 12345 678)
              {| Adapter.distanceKm := S754_finite false 6952431924753203 (-49);
                 Adapter.distanceMiles := S754_finite false 8635652285482926 (-50);
                 Adapter.durationMins := S754_finite false 6361334473660826 (-49) |})
    as (m & sec & (el & dist & dur & meters & seconds & _ & Hel & _ & Hdist & Hmeters
                   & Hm & _) & Hkm & _).
  - vm_compute. reflexivity.
  - vm_compute in Hel. injection Hel as <-.
    vm_compute in Hdist. injection Hdist as <-.
    vm_compute in Hmeters. injection Hmeters as <-.
    vm_compute in Hm. injection Hm as <-.
    exact Hkm.
Defined.

Lemma value_absent_or_null_witness :
  Adapter.getDistance_data (engine := v8) "95131" "60601" distance_without_value
  = Return {| Adapter.distanceKm := NaN; Adapter.distanceMiles := NaN;
              Adapter.durationMins := round2 (div (of_Z 600) (of_Z 60)) |}.
Proof.
  apply (proj1 (value_absent_or_null (engine := v8) "95131" "60601"
                  distance_without_value
                  (Obj [("status", Str "OK"); ("distance", Obj []);
                        ("duration", Obj [("value", Num (of_Z 600))])])
                  (Obj []) (Obj [("value", Num (of_Z 600))]) (of_Z 600)
                  eq_refl eq_refl eq_refl eq_refl eq_refl eq_refl)).
  reflexivity.
Defined.

Lemma only_first_element_witness :
  Adapter.getDistance_data (engine := v8) "95131" "60601"
    (body_of (Str "OK") (element_of "OK" 1000 60) [element_of "ZERO_RESULTS" 0 0] [Null])
  = Adapter.getDistance_data (engine := v8) "95131" "60601" (ok_response 1000 60).
Proof.
  apply (proj1 (only_first_element (engine := v8) "95131" "60601"
                  (body_of (Str "OK") (element_of "OK" 1000 60)
                           [element_of "ZERO_RESULTS" 0 0] [Null])
                  (ok_response 1000 60) eq_refl eq_refl)).
Defined.

Lemma calls_in_order_witness :
  nth_error (requests (snd (Batch.computeBatch (engine := v8) sample_sources "60601"
                                               four_routes))) 2
  = Some "https://distancefindapi.onrender.com/api/distance?origins=07305&destinations=60601".
Proof.
  destruct (calls_in_order (engine := v8) sample_sources "60601" four_routes 2 "07305"
                           eq_refl) as [H _].
  exact H.
Defined.

Lemma numbers_in_numbers_out_witness :
  not_nan (decimal 1235 2) /\ not_nan (decimal 767 2) /\ not_nan (decimal 1130 2).
Proof.
  eapply (numbers_in_numbers_out (engine := v8) "95131" "60601" (ok_response 12345 678)
            _ _ _ (of_Z 12345) (of_Z 678)
            {| Adapter.distanceKm := decimal 1235 2;
               Adapter.distanceMiles := decimal 767 2;
               Adapter.durationMins := decimal 1130 2 |}).
  - vm_compute. reflexivity.
  - reflexivity.
  - reflexivity.
  - reflexivity.
  - reflexivity.
  - reflexivity.
  - reflexivity.
  - reflexivity.
Defined.

Lemma only_submission_changes_cards_witness :
  snd (Handlers.handle (engine := v8) Handlers.Click App.initial four_routes) = four_routes.
Proof.
  apply (proj1 (only_submission_changes_cards (engine := v8) Handlers.Click App.initial
                  four_routes ltac:(discriminate))).
Defined.

Lemma card_colours_witness :
  View.get "backgroundColor"
    (View.cardStyle true (nth 1 (run four_routes)
                              {| Batch.entry := Batch.failure "" (TypeError "");
                                 Batch.isMin := false |}))
  = View.str "#d4edda".
Proof.
  destruct (card_colours (engine := v8) sample_sources "60601" four_routes
              (nth 1 (run four_routes)
                   {| Batch.entry := Batch.failure "" (TypeError "");
                      Batch.isMin := false |}) true 1) as [H _].
  - vm_compute. tauto.
  - apply H. vm_compute. reflexivity.
Defined.

End MoreRuns.
